(** * sqlnull: scanning SQL NULLs into plain Go pointers

    A shallow embedding of [sqlnull.go] (package [sqlnull]) together with the
    fragments of Go's [reflect] and [database/sql] packages that the package
    calls, and the properties of [validate], [NullValue.Scan], [Target],
    [Scanner] and [New] that the specification states.

    Go values live in a store of typed variables; a Go function is a
    computation over that store which either returns or panics. *)

From Stdlib Require Import ZArith String List Bool.
From Stdlib Require Import Floats.SpecFloat.
From stdpp Require Import base option gmap strings list fin_maps.

Local Open Scope Z_scope.
#[local] Set Warnings "-register-all".

(** ** Go types *)

(** The predeclared types, under their Go names. *)
Module go.
Inductive basic :=
  | bool | int | int8 | int16 | int32 | int64
  | uint | uint8 | uint16 | uint32 | uint64 | uintptr
  | float32 | float64 | complex64 | complex128
  | string | unsafe_Pointer.
End go.

#[global] Instance basic_eq_dec : EqDecision go.basic.
Proof. solve_decision. Defined.

(** A type is predeclared, a type literal, or declared ([TNamed]: the package
    path and name identify the declaration, [decl] is the type it was declared
    with).  Two types are identical exactly when the terms are equal. *)
Inductive GoType :=
  | TBasic (b : go.basic)
  | TPtr (elem : GoType)
  | TSlice (elem : GoType)
  | TArray (len : nat) (elem : GoType)
  | TMap (key elem : GoType)
  | TChan (elem : GoType)
  | TFunc (ins outs : Fields)
  | TStruct (fields : Fields)
  | TInterface
  | TNamed (pkg name : string) (decl : GoType)
with Fields :=
  | FNil
  | FCons (name : string) (ty : GoType) (rest : Fields).

Fixpoint GoType_eq_dec (a b : GoType) {struct a} : {a = b} + {a <> b}
with Fields_eq_dec (a b : Fields) {struct a} : {a = b} + {a <> b}.
Proof.
  - decide equality;
      first [ apply String.string_dec | apply Nat.eq_dec | apply basic_eq_dec
            | apply Fields_eq_dec ].
  - decide equality;
      first [ apply String.string_dec | apply GoType_eq_dec ].
Defined.

#[global] Instance GoType_eqdec : EqDecision GoType := GoType_eq_dec.

(** The underlying type: declarations are followed to a literal. *)
Fixpoint underlying (t : GoType) : GoType :=
  match t with
  | TNamed _ _ d => underlying d
  | _ => t
  end.

Definition is_named (t : GoType) : bool :=
  match t with
  | TNamed _ _ _ | TBasic _ => true
  | _ => false
  end.

(** ** Go values and the store *)

Abbreviation loc := positive (only parsing).

(** [VPtr None] is the nil pointer; [VNil] the nil slice, map, channel or
    function; [VAggr] lists the fields of a struct or the elements of an
    array; [VIface None] is the nil interface, [VIface (Some (t, v))] an
    interface holding [v] of dynamic type [t]. *)
Inductive value :=
  | VBool (b : bool)
  | VInt (n : Z)
  | VFloat (f : spec_float)
  | VComplex (re im : spec_float)
  | VString (s : string)
  | VPtr (p : option loc)
  | VNil
  | VSlice (elems : list value)
  | VAggr (elems : list value)
  | VIface (dyn : option (GoType * value)).

(** Go's [any]: an interface value, nil or a dynamic type with its value. *)
Abbreviation any := (option (GoType * value)) (only parsing).

(** A variable: its type and its current contents. *)
Abbreviation cell := (GoType * value)%type (only parsing).

Abbreviation heap := (gmap positive cell) (only parsing).

(** The zero value of a type. *)
Fixpoint zero (t : GoType) : value :=
  match t with
  | TBasic b =>
      match b with
      | go.bool => VBool false
      | go.string => VString EmptyString
      | go.float32 | go.float64 => VFloat (S754_zero false)
      | go.complex64 | go.complex128 =>
          VComplex (S754_zero false) (S754_zero false)
      | go.unsafe_Pointer => VPtr None
      | _ => VInt 0
      end
  | TPtr _ => VPtr None
  | TSlice _ | TMap _ _ | TChan _ | TFunc _ _ => VNil
  | TArray n e => VAggr (replicate n (zero e))
  | TStruct fs => VAggr (zero_fields fs)
  | TInterface => VIface None
  | TNamed _ _ d => zero d
  end
with zero_fields (fs : Fields) : list value :=
  match fs with
  | FNil => []
  | FCons _ t rest => zero t :: zero_fields rest
  end.

(** ** Computations: a store is threaded, a panic stops everything *)

Inductive outcome (A : Type) :=
  | Ret (a : A) (h : heap)
  | Panic (why : string).
Arguments Ret {A} a h.
Arguments Panic {A} why.

Definition M (A : Type) : Type := heap -> outcome A.

Definition ret {A} (a : A) : M A := fun h => Ret a h.
Definition panic {A} (why : string) : M A := fun _ => Panic why.
Definition bind {A B} (m : M A) (k : A -> M B) : M B :=
  fun h => match m h with
           | Ret a h' => k a h'
           | Panic why => Panic why
           end.

#[global] Instance M_ret : MRet M := @ret.
#[global] Instance M_bind : MBind M := fun A B k m => bind m k.

(** [new(T)] and [&T{...}]: a variable at an address no variable has yet. *)
Definition alloc (c : cell) : M loc :=
  fun h => let l := fresh (dom h) in Ret l (<[l := c]> h).

(** Reading through a pointer.  A Go pointer that is not nil always names a
    variable; an address without one has no counterpart in a Go program and is
    reported as a panic. *)
Definition load (l : loc) : M cell :=
  fun h => match h !! l with
           | Some c => Ret c h
           | None => Panic "invalid memory address"
           end.

(** Writing through a pointer: the variable keeps its type. *)
Definition store (l : loc) (v : value) : M unit :=
  fun h => match h !! l with
           | Some (t, _) => Ret tt (<[l := (t, v)]> h)
           | None => Panic "invalid memory address"
           end.

Definition nil_dereference : string :=
  "runtime error: invalid memory address or nil pointer dereference".

(** ** Package reflect: the part that sqlnull calls *)

Module reflect.

Inductive Kind :=
  | Invalid | Bool | Int | Int8 | Int16 | Int32 | Int64
  | Uint | Uint8 | Uint16 | Uint32 | Uint64 | Uintptr
  | Float32 | Float64 | Complex64 | Complex128
  | Array | Chan | Func | Interface | Map | Ptr | Slice | String | Struct
  | UnsafePointer.

#[global] Instance Kind_eq_dec : EqDecision Kind.
Proof. solve_decision. Defined.

Definition basic_kind (b : go.basic) : Kind :=
  match b with
  | go.bool => Bool | go.int => Int | go.int8 => Int8 | go.int16 => Int16
  | go.int32 => Int32 | go.int64 => Int64 | go.uint => Uint
  | go.uint8 => Uint8 | go.uint16 => Uint16 | go.uint32 => Uint32
  | go.uint64 => Uint64 | go.uintptr => Uintptr | go.float32 => Float32
  | go.float64 => Float64 | go.complex64 => Complex64
  | go.complex128 => Complex128 | go.string => String
  | go.unsafe_Pointer => UnsafePointer
  end.

(** The kind of a type is that of its underlying type. *)
Fixpoint kind_of (t : GoType) : Kind :=
  match t with
  | TBasic b => basic_kind b
  | TPtr _ => Ptr
  | TSlice _ => Slice
  | TArray _ _ => Array
  | TMap _ _ => Map
  | TChan _ => Chan
  | TFunc _ _ => Func
  | TStruct _ => Struct
  | TInterface => Interface
  | TNamed _ _ d => kind_of d
  end.

(** The element type of an array, channel, map, pointer or slice type. *)
Fixpoint elem_of (t : GoType) : option GoType :=
  match t with
  | TPtr e | TSlice e | TArray _ e | TMap _ e | TChan e => Some e
  | TNamed _ _ d => elem_of d
  | _ => None
  end.

(** [reflect.Type] is an interface: [None] is its nil value, which
    [TypeOf] returns for a nil interface.  A method called on it panics. *)
Definition Type_ : Type := option GoType.

Definition TypeOf (i : any) : Type_ := fst <$> i.

Definition Type_Kind (t : Type_) : M Kind :=
  match t with
  | None => panic nil_dereference
  | Some t => mret (kind_of t)
  end.

Definition Type_Elem (t : Type_) : M Type_ :=
  match t with
  | None => panic nil_dereference
  | Some t =>
      match elem_of t with
      | Some e => mret (Some e)
      | None => panic "reflect: Elem of invalid type"
      end
  end.

(** [reflect.Value]: the zero Value, a variable reached through a pointer
    (addressable), or a copy of a value (not addressable). *)
Inductive Value :=
  | ZeroValue
  | Addressable (typ : GoType) (ptr : loc)
  | Direct (typ : GoType) (v : value).

Definition ValueOf (i : any) : Value :=
  match i with
  | None => ZeroValue
  | Some (t, v) => Direct t v
  end.

Definition CanAddr (v : Value) : bool :=
  match v with
  | Addressable _ _ => true
  | _ => false
  end.

(** The type and the contents a Value stands for. *)
Definition contents (what : string) (v : Value) : M cell :=
  match v with
  | ZeroValue => panic ("reflect: call of " +:+ what +:+ " on zero Value")
  | Direct t x => mret (t, x)
  | Addressable t l => c ← load l; mret (t, c.2)
  end.

(** [v.Elem()]: the variable a pointer points to, or the value an interface
    holds; the zero Value for a nil pointer or a nil interface. *)
Definition Elem (v : Value) : M Value :=
  c ← contents "reflect.Value.Elem" v;
  match kind_of c.1, c.2 with
  | Ptr, VPtr None => mret ZeroValue
  | Ptr, VPtr (Some l) =>
      match elem_of c.1 with
      | Some e => mret (Addressable e l)
      | None => panic "reflect: Elem of invalid type"
      end
  | Interface, VIface d => mret (ValueOf d)
  | _, _ => panic "reflect: call of reflect.Value.Elem on a Value of another kind"
  end.

(** A value of type [V] can be stored as it is in a variable of type [T]:
    identical types, or identical underlying types when one of the two is
    not a named type. *)
Definition directlyAssignable (T V : GoType) : bool :=
  bool_decide (T = V)
  || (negb (is_named T && is_named V)
      && bool_decide (underlying T = underlying V)).

(** [v.Set(x)]: [v] must be addressable and [x] assignable to its type; a
    variable of interface type receives [x] wrapped with its dynamic type
    (method sets are not represented: [any] is the interface in use). *)
Definition Set_ (v x : Value) : M unit :=
  match v with
  | Addressable t l =>
      c ← contents "reflect.Value.Set" x;
      if directlyAssignable t c.1 then store l c.2
      else if bool_decide (underlying t = TInterface)
           then store l (VIface (Some c))
           else panic "reflect.Set: value is not assignable to type"
  | Direct _ _ => panic "reflect: reflect.Value.Set using unaddressable value"
  | ZeroValue => panic "reflect: call of reflect.Value.Set on zero Value"
  end.

Definition Zero (typ : Type_) : M Value :=
  match typ with
  | None => panic "reflect: Zero(nil)"
  | Some t => mret (Direct t (zero t))
  end.

(** [reflect.New(typ)]: a pointer to a new zero variable of that type. *)
Definition New (typ : Type_) : M Value :=
  match typ with
  | None => panic "reflect: New(nil)"
  | Some t => l ← alloc (t, zero t); mret (Direct (TPtr t) (VPtr (Some l)))
  end.

(** *** Conversion *)

Definition wrap_signed (w z : Z) : Z := (z + 2 ^ (w - 1)) mod 2 ^ w - 2 ^ (w - 1).
Definition wrap_unsigned (w z : Z) : Z := z mod 2 ^ w.

(** Rounding a binary64 value to binary32, to nearest even. *)
Definition round32 (f : spec_float) : spec_float :=
  match f with
  | S754_finite s m e => binary_round 24 128 s m e
  | _ => f
  end.

Definition is_int (k : Kind) : bool :=
  match k with
  | Int | Int8 | Int16 | Int32 | Int64 => true
  | _ => false
  end.

Definition is_uint (k : Kind) : bool :=
  match k with
  | Uint | Uint8 | Uint16 | Uint32 | Uint64 | Uintptr => true
  | _ => false
  end.

Definition is_float (k : Kind) : bool :=
  match k with
  | Float32 | Float64 => true
  | _ => false
  end.

Section Convert.

(** The size of [int], [uint] and [uintptr]: 32 or 64 by platform. *)
Variable intSize : Z.

(** An integer stored at the size and signedness of kind [k]. *)
Definition makeInt (k : Kind) (z : Z) : Z :=
  match k with
  | Int8 => wrap_signed 8 z
  | Int16 => wrap_signed 16 z
  | Int32 => wrap_signed 32 z
  | Int64 => wrap_signed 64 z
  | Int => wrap_signed intSize z
  | Uint8 => wrap_unsigned 8 z
  | Uint16 => wrap_unsigned 16 z
  | Uint32 => wrap_unsigned 32 z
  | Uint64 => wrap_unsigned 64 z
  | Uint | Uintptr => wrap_unsigned intSize z
  | _ => z
  end.

Definition makeFloat (k : Kind) (f : spec_float) : spec_float :=
  match k with
  | Float32 => round32 f
  | _ => f
  end.

(** The conversion of a value of type [src] to type [dst], when there is
    one.  Of reflect's table these rows are embedded: integer to integer
    ([cvtInt], [cvtUint]), float to float ([cvtFloat]), identical
    underlying types ([cvtDirect]) and any type to an interface.  The
    rows integer to or from float, integer or slice to string, string to
    slice, slice to array and pointers of one base type are left out:
    [validate] never pairs such types, and [convertOp] answers them like
    the pairs Go cannot convert. *)
Definition convertOp (dst src : GoType) : option (value -> value) :=
  let kd := kind_of dst in
  let ks := kind_of src in
  if (is_int ks || is_uint ks) && (is_int kd || is_uint kd) then
    Some (fun v => match v with VInt z => VInt (makeInt kd z) | _ => v end)
  else if is_float ks && is_float kd then
    Some (fun v => match v with VFloat f => VFloat (makeFloat kd f) | _ => v end)
  else if bool_decide (underlying dst = underlying src) then
    Some (fun v => v)
  else if bool_decide (underlying dst = TInterface) then
    Some (fun v => VIface (Some (src, v)))
  else None.

(** [v.Convert(t)]: panics when the value cannot be converted. *)
Definition Convert (v : Value) (t : Type_) : M Value :=
  match t with
  | None => panic "reflect: nil type passed to Type.ConvertibleTo"
  | Some t =>
      c ← contents "reflect.Value.Convert" v;
      match convertOp t c.1 with
      | Some op => mret (Direct t (op c.2))
      | None => panic "reflect.Value.Convert: value cannot be converted to type"
      end
  end.

End Convert.

End reflect.

(** ** Errors *)

(** The two errors a scan can return: the one [validate] builds with
    [fmt.Errorf("NullValue for %T type is not supported", target)], which
    depends on the target's dynamic type only, and the one the holder's own
    [Scan] returns when it cannot convert the column value. *)
Inductive error :=
  | UnsupportedDestination (T : reflect.Type_)
  | ConversionError (msg : string).

(** ** Package database/sql: the null holders *)

Module sql.

(** The holder types [sql.NullBool], ..., [sql.NullTime]. *)
Inductive Null :=
  | NullBool | NullByte | NullInt16 | NullInt32 | NullInt64
  | NullString | NullFloat64 | NullTime.

#[global] Instance Null_eq_dec : EqDecision Null.
Proof. solve_decision. Defined.

(** [time.Time]: a declared struct type of package time.  The fields of
    [time.Location] play no part and are not listed. *)
Definition time_Location : GoType := TNamed "time" "Location" (TStruct FNil).

Definition time_Time : GoType :=
  TNamed "time" "Time"
    (TStruct (FCons "wall" (TBasic go.uint64)
             (FCons "ext" (TBasic go.int64)
             (FCons "loc" (TPtr time_Location) FNil)))).

Record Time := mkTime { wall : Z; ext : Z; loc : option positive }.

(** The type of the value field of each holder. *)
Definition field_type (k : Null) : GoType :=
  match k with
  | NullBool => TBasic go.bool
  | NullByte => TBasic go.uint8
  | NullInt16 => TBasic go.int16
  | NullInt32 => TBasic go.int32
  | NullInt64 => TBasic go.int64
  | NullString => TBasic go.string
  | NullFloat64 => TBasic go.float64
  | NullTime => time_Time
  end.

Definition field_name (k : Null) : string :=
  match k with
  | NullBool => "Bool" | NullByte => "Byte" | NullInt16 => "Int16"
  | NullInt32 => "Int32" | NullInt64 => "Int64" | NullString => "String"
  | NullFloat64 => "Float64" | NullTime => "Time"
  end.

Definition type_name (k : Null) : string := "Null" +:+ field_name k.

(** [type NullBool struct { Bool bool; Valid bool }] and its siblings. *)
Definition holder_type (k : Null) : GoType :=
  TNamed "database/sql" (type_name k)
    (TStruct (FCons (field_name k) (field_type k)
             (FCons "Valid" (TBasic go.bool) FNil))).

(** What the value field of a holder can contain. *)
Definition native (k : Null) : Type :=
  match k with
  | NullBool => bool
  | NullByte | NullInt16 | NullInt32 | NullInt64 => Z
  | NullString => string
  | NullFloat64 => spec_float
  | NullTime => Time
  end.

(** The field as a Go value; an integer is stored at the field's size. *)
Definition field_value (k : Null) : native k -> value :=
  match k with
  | NullBool => VBool
  | NullByte => fun z => VInt (reflect.wrap_unsigned 8 z)
  | NullInt16 => fun z => VInt (reflect.wrap_signed 16 z)
  | NullInt32 => fun z => VInt (reflect.wrap_signed 32 z)
  | NullInt64 => fun z => VInt (reflect.wrap_signed 64 z)
  | NullString => VString
  | NullFloat64 => VFloat
  | NullTime => fun t => VAggr [VInt (wall t); VInt (ext t); VPtr (loc t)]
  end.

(** [sql.Scanner] and [driver.Valuer] interface values whose dynamic type is
    a pointer to a holder: the holder type and the pointer. *)
Definition Scanner : Type := option (Null * positive).

(** [&sql.NullBool{}] and its siblings: a new zero holder. *)
Definition new_holder (k : Null) : M Scanner :=
  l ← alloc (holder_type k, zero (holder_type k)); mret (Some (k, l)).

Section Holders.

(** [convertAssign(&n.Field, value)] for a [value] that is not nil: the
    converted column value, or the message of the error.  It is the
    row-fetch engine's conversion and stays a parameter. *)
Variable convertAssign : forall k : Null, GoType * value -> string + native k.

(** [func (n *NullX) Scan(value any) error]: nil clears the holder, any
    other value is converted into the field.  On an error [NullByte] and
    [NullInt16] record [Valid = false], the others (which set [Valid]
    before converting) [Valid = true]. *)
Definition valid_on_error (k : Null) : bool :=
  match k with
  | NullByte | NullInt16 => false
  | _ => true
  end.

Definition Scan (n : Scanner) (src : any) : M (option error) :=
  match n with
  | None => panic nil_dereference
  | Some (k, l) =>
      match src with
      | None =>
          store l (VAggr [zero (field_type k); VBool false]);; mret None
      | Some raw =>
          match convertAssign k raw with
          | inr x =>
              store l (VAggr [field_value k x; VBool true]);; mret None
          | inl msg =>
              c ← load l;
              match c.2 with
              | VAggr [f; _] =>
                  store l (VAggr [f; VBool (valid_on_error k)]);;
                  mret (Some (ConversionError msg))
              | _ => panic "sql: holder is not a holder"
              end
          end
      end
  end.

(** [func (n NullX) Value() (driver.Value, error)]: nil when not valid,
    else the field, the integer holders as [int64]. *)
Definition value_type (k : Null) : GoType :=
  match k with
  | NullByte | NullInt16 | NullInt32 | NullInt64 => TBasic go.int64
  | _ => field_type k
  end.

Definition Value (n : Scanner) : M (any * option error) :=
  match n with
  | None => panic nil_dereference
  | Some (k, l) =>
      c ← load l;
      match c.2 with
      | VAggr [f; VBool valid] =>
          if valid then mret (Some (value_type k, f), None)
          else mret (None, None)
      | _ => panic "sql: holder is not a holder"
      end
  end.

End Holders.

(** [convertAssign(dest, src)] for a [dest] of type [*any], which is how the
    row-fetch engine itself treats such a destination: [*d = src], unless
    the pointer is nil. *)
Definition convertAssign_any (d : option positive) (src : any) : M (option error) :=
  match d with
  | None => mret (Some (ConversionError "destination pointer is nil"))
  | Some l => store l (VIface src);; mret None
  end.

End sql.

(** ** Package sqlnull *)

Module sqlnull.

(** [type NullValue struct { target any }] *)
Definition NullValue : GoType :=
  TNamed "github.com/ceebydith/sqlnull" "NullValue"
    (TStruct (FCons "target" TInterface FNil)).

(** [New]: [&NullValue{target: target}], without any check of [target]. *)
Definition New (target : any) : M (option positive) :=
  l ← alloc (NullValue, VAggr [VIface target]); mret (Some l).

(** The results of [validate]: [(sql.Scanner, reflect.Type, error)]. *)
Definition validated : Type := sql.Scanner * reflect.Type_ * option error.

(** [return &sql.NullX{}, targetType, nil] *)
Definition supported (k : sql.Null) (targetType : reflect.Type_) : M validated :=
  n ← sql.new_holder k; mret (n, targetType, None).

(** [return nil, nil, fmt.Errorf("NullValue for %T type is not supported", target)] *)
Definition unsupported (target : any) : M validated :=
  mret (None, None, Some (UnsupportedDestination (reflect.TypeOf target))).

(** [validate]: the holder for a target that is a pointer to a pointer to
    one of the supported types, an error for any other target. *)
Definition validate (target : any) : M validated :=
  let targetType := reflect.TypeOf target in
  k ← reflect.Type_Kind targetType;
  two ← (if bool_decide (k = reflect.Ptr)
         then e ← reflect.Type_Elem targetType;
              ke ← reflect.Type_Kind e;
              mret (bool_decide (ke = reflect.Ptr))
         else mret false);
  if two : bool then
    e ← reflect.Type_Elem targetType;
    T ← reflect.Type_Elem e;
    kT ← reflect.Type_Kind T;
    match kT with
    | reflect.Bool => supported sql.NullBool targetType
    | reflect.Uint8 => supported sql.NullByte targetType
    | reflect.Int8 | reflect.Int16 | reflect.Uint16 =>
        supported sql.NullInt16 targetType
    | reflect.Int32 | reflect.Uint32 => supported sql.NullInt32 targetType
    | reflect.Int64 | reflect.Uint64 | reflect.Int | reflect.Uint =>
        supported sql.NullInt64 targetType
    | reflect.String => supported sql.NullString targetType
    | reflect.Float32 | reflect.Float64 =>
        supported sql.NullFloat64 targetType
    | reflect.Struct =>
        if bool_decide (T = Some sql.time_Time)
        then supported sql.NullTime targetType
        else unsupported target
    | _ => unsupported target
    end
  else unsupported target.

(** [v.target] for a receiver [v *NullValue]. *)
Definition target_of (v : option positive) : M any :=
  match v with
  | None => panic nil_dereference
  | Some l =>
      c ← load l;
      match c.2 with
      | VAggr [VIface target] => mret target
      | _ => panic "sqlnull: receiver is not a NullValue"
      end
  end.

Section Scan.

Variable intSize : Z.
Variable convertAssign : forall k : sql.Null, GoType * value -> string + sql.native k.

(** [func (v *NullValue) Scan(src any) error] *)
Definition Scan (v : option positive) (src : any) : M (option error) :=
  target ← target_of v;
  '(null, targetType, err) ← validate target;
  match err with
  | Some e => mret (Some e)
  | None =>
      err ← sql.Scan convertAssign null src;
      match err with
      | Some e => mret (Some e)
      | None =>
          val ← reflect.Elem (reflect.ValueOf target);
          '(x, err) ← sql.Value null;
          match err, x with
          | Some e, _ => mret (Some e)
          | None, None =>
              te ← reflect.Type_Elem targetType;
              z ← reflect.Zero te;
              reflect.Set_ val z;;
              mret None
          | None, Some _ =>
              let newval := reflect.ValueOf x in
              ve ← reflect.Elem val;
              (if negb (reflect.CanAddr ve)
               then te ← reflect.Type_Elem targetType;
                    T ← reflect.Type_Elem te;
                    n ← reflect.New T;
                    reflect.Set_ val n
               else mret tt);;
              ve ← reflect.Elem val;
              te ← reflect.Type_Elem targetType;
              T ← reflect.Type_Elem te;
              c ← reflect.Convert intSize newval T;
              reflect.Set_ ve c;;
              mret None
          end
      end
  end.

End Scan.

(** [Target]: a discard target for nil, a [*NullValue] for a target that
    [validate] accepts, the target itself otherwise. *)
Definition Target (target : any) : M any :=
  match target with
  | None =>
      l ← alloc (TInterface, VIface None);
      mret (Some (TPtr TInterface, VPtr (Some l)))
  | Some _ =>
      '(_, _, err) ← validate target;
      match err with
      | None => v ← New target; mret (Some (TPtr NullValue, VPtr v))
      | Some _ => mret target
      end
  end.

(** [Scanner]: [result = append(result, Target(target))] for each target
    in order. *)
Fixpoint Scanner_loop (targets result : list any) : M (list any) :=
  match targets with
  | [] => mret result
  | target :: rest =>
      t ← Target target;
      Scanner_loop rest (result ++ [t])
  end.

Definition Scanner (targets : list any) : M (list any) :=
  Scanner_loop targets [].

End sqlnull.

(** ** A fragment of the row-fetch engine, for concrete runs *)

(** The rows of [convertAssign] where the column value already has the kind
    of the holder's field: a bool, a string, a float64 or a time is stored as
    it is, an int64 when it fits the field and is rejected when it does not. *)
Definition fits (lo hi z : Z) : string + Z :=
  if bool_decide (lo <= z <= hi) then inr z
  else inl "converting driver.Value type int64: value out of range"%string.

Definition unsupported {A} : string + A :=
  inl "unsupported Scan, storing driver.Value into type"%string.

Definition direct_convertAssign (k : sql.Null) (raw : GoType * value)
  : string + sql.native k :=
  match k return string + sql.native k with
  | sql.NullBool => match raw.2 with VBool b => inr b | _ => unsupported end
  | sql.NullByte => match raw.2 with VInt z => fits 0 255 z | _ => unsupported end
  | sql.NullInt16 =>
      match raw.2 with VInt z => fits (-32768) 32767 z | _ => unsupported end
  | sql.NullInt32 =>
      match raw.2 with
      | VInt z => fits (-2147483648) 2147483647 z
      | _ => unsupported
      end
  | sql.NullInt64 =>
      match raw.2 with
      | VInt z => fits (-9223372036854775808) 9223372036854775807 z
      | _ => unsupported
      end
  | sql.NullString => match raw.2 with VString s => inr s | _ => unsupported end
  | sql.NullFloat64 => match raw.2 with VFloat f => inr f | _ => unsupported end
  | sql.NullTime =>
      match raw.2 with
      | VAggr [VInt w; VInt e; VPtr l] => inr (sql.mkTime w e l)
      | _ => unsupported
      end
  end.


(** ** The specification's resolver *)

(** The fixed table of the specification, on the predeclared types; the
    timestamp is not in it: it is the one type [time.Time]. *)
Definition fixed_table (b : go.basic) : option sql.Null :=
  match b with
  | go.bool => Some sql.NullBool
  | go.uint8 => Some sql.NullByte
  | go.int8 | go.int16 | go.uint16 => Some sql.NullInt16
  | go.int32 | go.uint32 => Some sql.NullInt32
  | go.int64 | go.uint64 | go.int | go.uint => Some sql.NullInt64
  | go.string => Some sql.NullString
  | go.float32 | go.float64 => Some sql.NullFloat64
  | _ => None
  end.

(** [T] when the type is a pointer to a pointer to [T], through any type
    declarations on the way. *)
Definition innermost (ty : GoType) : option GoType :=
  match underlying ty with
  | TPtr e =>
      match underlying e with
      | TPtr T => Some T
      | _ => None
      end
  | _ => None
  end.

Definition scalar_kind (T : GoType) : option sql.Null :=
  if bool_decide (T = sql.time_Time) then Some sql.NullTime
  else match underlying T with
       | TBasic b => fixed_table b
       | _ => None
       end.

Definition resolve (ty : GoType) : option sql.Null :=
  match innermost ty with
  | Some T => scalar_kind T
  | None => None
  end.

(** What a call of [validate] decided, apart from where the new holder is:
    the holder type, the type returned and the error; [None] for a panic. *)
Definition verdict (o : outcome sqlnull.validated)
  : option (option sql.Null * reflect.Type_ * option error) :=
  match o with
  | Ret (n, t, e) _ => Some (fst <$> n, t, e)
  | Panic _ => None
  end.

(** The value of a holder as a variable of type [T] holds it after Go's
    conversion [T(v)]: an integer at the size and signedness of [T], a float
    at the size of [T], any other value as it is. *)
Definition declared_value (intSize : Z) (T : GoType) (v : value) : value :=
  match v with
  | VInt z => VInt (reflect.makeInt intSize (reflect.kind_of T) z)
  | VFloat f => VFloat (reflect.makeFloat (reflect.kind_of T) f)
  | _ => v
  end.

(** A computation that, whatever the store, does not return an error. *)
Definition no_error {A} (m : M (option A)) : Prop :=
  forall h a h', m h <> Ret (Some a) h'.

(** The holder type alone. *)
Definition classification (o : outcome sqlnull.validated) : option (option sql.Null) :=
  (fun v => v.1.1) <$> verdict o.

(** The destination's variable [p] holds, in [h'], nil or a pointer to a
    variable that did not exist in [h]. *)
Definition nil_or_fresh (h h' : heap) (p : positive) : Prop :=
  exists tp inner,
    h' !! p = Some (tp, VPtr inner) /\
    match inner with
    | None => True
    | Some q => h !! q = None
    end.

(** What [Target] made of a target, between the store [h] it was called in
    and a later store [h']: a discard target, a new [*any] that accepts every
    column value; an adapter, a new [*NullValue] around the target; or the
    target itself. *)
Inductive built (h h' : heap) : any -> any -> Prop :=
  | built_discard l :
      h !! l = None ->
      h' !! l = Some (TInterface, VIface None) ->
      (forall src, sql.convertAssign_any (Some l) src h' =
                   Ret None (<[l := (TInterface, VIface src)]> h')) ->
      built h h' None (Some (TPtr TInterface, VPtr (Some l)))
  | built_adapter ty x k l :
      resolve ty = Some k ->
      h !! l = None ->
      h' !! l = Some (sqlnull.NullValue, VAggr [VIface (Some (ty, x))]) ->
      built h h' (Some (ty, x)) (Some (TPtr sqlnull.NullValue, VPtr (Some l)))
  | built_through ty x :
      resolve ty = None ->
      built h h' (Some (ty, x)) (Some (ty, x)).

(** ** Sample programs *)

(** [type CustomBool bool] and [type CustomInt16 int16], as the tests declare
    them, and a [type MyTime time.Time]. *)
Definition CustomBool : GoType := TNamed "sqlnull_test" "CustomBool" (TBasic go.bool).
Definition CustomInt16 : GoType := TNamed "sqlnull_test" "CustomInt16" (TBasic go.int16).
Definition MyTime : GoType := TNamed "main" "MyTime" sql.time_Time.

(** [var field *CustomBool] at address 1 and [sqlnull.New(&field)] at address
    3; in [heap_set] the field points at a [CustomBool] variable holding
    [true] at address 2, in [heap_nil] it is nil. *)
Definition dest_bool : any := Some (TPtr (TPtr CustomBool), VPtr (Some 1%positive)).

Definition heap_nil : heap :=
  <[3%positive := (sqlnull.NullValue, VAggr [VIface dest_bool])]>
    {[ 1%positive := (TPtr CustomBool, VPtr None) ]}.

Definition heap_set : heap :=
  <[3%positive := (sqlnull.NullValue, VAggr [VIface dest_bool])]>
    (<[2%positive := (CustomBool, VBool true)]>
       {[ 1%positive := (TPtr CustomBool, VPtr (Some 2%positive)) ]}).

(** [alien := new(struct{ Data bool })] of the tests, passed as [&alien], and
    the [some int] that the tests pass to [New]. *)
Definition alien : any :=
  Some (TPtr (TPtr (TStruct (FCons "Data" (TBasic go.bool) FNil))), VPtr None).
Definition some_int : any := Some (TBasic go.int, VInt 0).

Definition sample_targets : list any := [dest_bool; None; alien].

Definition raw_true : GoType * value := (TBasic go.bool, VBool true).
Definition raw_false : GoType * value := (TBasic go.bool, VBool false).
Definition raw_text : GoType * value := (TBasic go.string, VString "lorem ipsum").

(** ** More of the package: definitions *)




(** A [NullValue] at address 3 around a nil [**CustomBool]; a lone
    [*CustomBool] field at address 1; a [NullValue] around the address of an
    [*int8] field; an integer column value of 300. *)
Definition heap_nil_outer : heap :=
  {[ 3%positive :=
       (sqlnull.NullValue, VAggr [VIface (Some (TPtr (TPtr CustomBool), VPtr None))]) ]}.

Definition heap_field : heap := {[ 1%positive := (TPtr CustomBool, VPtr None) ]}.



(** ** Lemmas on types *)

Lemma kind_underlying t : reflect.kind_of (underlying t) = reflect.kind_of t.
Proof. induction t; simpl; auto. Qed.

Lemma elem_underlying t : reflect.elem_of (underlying t) = reflect.elem_of t.
Proof. induction t; simpl; auto. Qed.

Lemma zero_underlying t : zero (underlying t) = zero t.
Proof. induction t; simpl; auto. Qed.

Lemma underlying_not_named t pkg name d : underlying t <> TNamed pkg name d.
Proof. induction t; simpl; auto; discriminate. Qed.

Lemma kind_Ptr_underlying t :
  reflect.kind_of t = reflect.Ptr -> exists e, underlying t = TPtr e.
Proof.
  induction t; simpl; try discriminate; eauto.
  destruct b; discriminate.
Qed.

Lemma innermost_Some ty T :
  innermost ty = Some T ->
  exists e, reflect.kind_of ty = reflect.Ptr /\ reflect.elem_of ty = Some e /\
            reflect.kind_of e = reflect.Ptr /\ reflect.elem_of e = Some T /\
            underlying e = TPtr T.
Proof.
  unfold innermost. intros H.
  destruct (underlying ty) as [| e | | | | | | | |] eqn:U; try discriminate.
  destruct (underlying e) as [| T' | | | | | | | |] eqn:U'; try discriminate.
  injection H as ->. exists e.
  rewrite <- (kind_underlying ty), <- (elem_underlying ty), U.
  rewrite <- (kind_underlying e), <- (elem_underlying e), U'. auto.
Qed.

Lemma scalar_kind_not_Ptr T k :
  scalar_kind T = Some k -> reflect.kind_of T <> reflect.Ptr.
Proof.
  unfold scalar_kind. case_bool_decide as E.
  - subst. discriminate.
  - rewrite <- (kind_underlying T).
    destruct (underlying T) as [b | | | | | | | | |]; try discriminate.
    destruct b; discriminate.
Qed.

(** ** [validate], run *)

Lemma validate_nil h : sqlnull.validate None h = Panic nil_dereference.
Proof. reflexivity. Qed.

Lemma validate_run ty x h :
  sqlnull.validate (Some (ty, x)) h =
  match resolve ty with
  | Some k =>
      Ret (Some (k, fresh (dom h)), Some ty, None)
          (<[fresh (dom h) := (sql.holder_type k, zero (sql.holder_type k))]> h)
  | None => Ret (None, None, Some (UnsupportedDestination (Some ty))) h
  end.
Proof.
  unfold resolve, innermost, sqlnull.validate, reflect.TypeOf. simpl.
  unfold mbind, M_bind, bind, mret, M_ret, ret. simpl.
  rewrite <- (kind_underlying ty), <- (elem_underlying ty).
  destruct (underlying ty) as [b | e | | | | | | | |] eqn:U; simpl;
    try reflexivity.
  { destruct b; reflexivity. }
  { rewrite <- (kind_underlying e), <- (elem_underlying e).
    destruct (underlying e) as [b | T | | | | | | | |] eqn:U'; simpl;
      try reflexivity.
    { destruct b; reflexivity. }
    { unfold scalar_kind. rewrite <- (kind_underlying T).
      destruct (underlying T) as [b | | | | | | | | |] eqn:UT; simpl;
        repeat case_bool_decide; simplify_eq; try reflexivity;
        try discriminate.
      all: try (exfalso; exact (underlying_not_named _ _ _ _ UT)).
      all: match goal with b : go.basic |- _ => destruct b end;
        first [ reflexivity | discriminate ]. }
    { exfalso. exact (underlying_not_named _ _ _ _ U'). } }
  { exfalso. exact (underlying_not_named _ _ _ _ U). }
Qed.

Lemma validate_supported ty x h k :
  resolve ty = Some k ->
  sqlnull.validate (Some (ty, x)) h =
  Ret (Some (k, fresh (dom h)), Some ty, None)
      (<[fresh (dom h) := (sql.holder_type k, zero (sql.holder_type k))]> h).
Proof. intros R. rewrite validate_run, R. reflexivity. Qed.

Lemma validate_unsupported ty x h :
  resolve ty = None ->
  sqlnull.validate (Some (ty, x)) h =
  Ret (None, None, Some (UnsupportedDestination (Some ty))) h.
Proof. intros R. rewrite validate_run, R. reflexivity. Qed.

(** ** The store *)

Lemma fresh_None (h : heap) : h !! fresh (dom h) = None.
Proof. apply not_elem_of_dom, is_fresh. Qed.

Lemma live_not_fresh (h : heap) l c : h !! l = Some c -> fresh (dom h) <> l.
Proof. intros H E. rewrite <- E, fresh_None in H. discriminate. Qed.

Lemma alloc_subseteq (h : heap) c : h ⊆ <[fresh (dom h) := c]> h.
Proof. apply insert_subseteq, fresh_None. Qed.

(** ** Running computations step by step *)

Lemma run_bind {A B} (m : M A) (k : A -> M B) h a h1 :
  m h = Ret a h1 -> (m ≫= k) h = k a h1.
Proof. unfold mbind, M_bind, bind. intros ->. reflexivity. Qed.

Lemma run_bind_panic {A B} (m : M A) (k : A -> M B) h why :
  m h = Panic why -> (m ≫= k) h = Panic why.
Proof. unfold mbind, M_bind, bind. intros ->. reflexivity. Qed.

Lemma run_ret {A} (a : A) h : mret (M := M) a h = Ret a h.
Proof. reflexivity. Qed.

Lemma run_alloc c h : alloc c h = Ret (fresh (dom h)) (<[fresh (dom h) := c]> h).
Proof. reflexivity. Qed.

Lemma run_load l c (h : heap) : h !! l = Some c -> load l h = Ret c h.
Proof. unfold load. intros ->. reflexivity. Qed.

Lemma run_store l t old v (h : heap) :
  h !! l = Some (t, old) -> store l v h = Ret tt (<[l := (t, v)]> h).
Proof. unfold store. intros ->. reflexivity. Qed.

(** One step of a computation: the head of a bind returns by [lem]. *)
Ltac step lem :=
  etrans; [ eapply run_bind; lem | cbv beta iota ].

Ltac lookup_heap :=
  repeat first
    [ rewrite lookup_insert_eq
    | rewrite lookup_insert_ne by (first [ assumption | apply not_eq_sym; assumption ]) ];
  first [ reflexivity | eassumption ].

(** ** reflect, run *)

Lemma zero_Ptr t : reflect.kind_of t = reflect.Ptr -> zero t = VPtr None.
Proof.
  intros K. destruct (kind_Ptr_underlying _ K) as [e U].
  rewrite <- zero_underlying, U. reflexivity.
Qed.

Lemma directlyAssignable_refl t : reflect.directlyAssignable t t = true.
Proof.
  unfold reflect.directlyAssignable. rewrite bool_decide_eq_true_2; auto.
Qed.

Lemma directlyAssignable_new e T :
  underlying e = TPtr T -> reflect.directlyAssignable e (TPtr T) = true.
Proof.
  intros U. unfold reflect.directlyAssignable. simpl.
  rewrite andb_false_r. simpl. rewrite (bool_decide_eq_true_2 _ U).
  apply orb_true_r.
Qed.

Lemma run_Elem_pointer ty e p h :
  reflect.kind_of ty = reflect.Ptr -> reflect.elem_of ty = Some e ->
  reflect.Elem (reflect.Direct ty (VPtr (Some p))) h =
  Ret (reflect.Addressable e p) h.
Proof.
  intros K E. unfold reflect.Elem. simpl.
  unfold mbind, M_bind, bind, mret, M_ret, ret. simpl. rewrite K, E.
  reflexivity.
Qed.

Lemma run_Elem_var e T p tp inner (h : heap) :
  reflect.kind_of e = reflect.Ptr -> reflect.elem_of e = Some T ->
  h !! p = Some (tp, VPtr inner) ->
  reflect.Elem (reflect.Addressable e p) h =
  Ret match inner with
      | None => reflect.ZeroValue
      | Some q => reflect.Addressable T q
      end h.
Proof.
  intros K E Hp. unfold reflect.Elem, reflect.contents.
  unfold mbind, M_bind, bind, mret, M_ret, ret, load. rewrite Hp. simpl.
  rewrite K, E. destruct inner; reflexivity.
Qed.

Lemma run_Set t l tl old t' x (h : heap) :
  reflect.directlyAssignable t t' = true ->
  h !! l = Some (tl, old) ->
  reflect.Set_ (reflect.Addressable t l) (reflect.Direct t' x) h =
  Ret tt (<[l := (tl, x)]> h).
Proof.
  intros D Hl. unfold reflect.Set_, reflect.contents.
  unfold mbind, M_bind, bind, mret, M_ret, ret. simpl. rewrite D.
  apply (run_store _ _ _ _ _ Hl).
Qed.

(** ** The holders, run *)

Section HoldersRun.

Variable convertAssign : forall k : sql.Null, GoType * value -> string + sql.native k.

Lemma run_sql_Scan_nil k l t old (h : heap) :
  h !! l = Some (t, old) ->
  sql.Scan convertAssign (Some (k, l)) None h =
  Ret None (<[l := (t, VAggr [zero (sql.field_type k); VBool false])]> h).
Proof.
  intros Hl. unfold sql.Scan.
  step ltac:(apply (run_store _ _ _ _ _ Hl)). reflexivity.
Qed.

Lemma run_sql_Scan_ok k l t old raw x (h : heap) :
  h !! l = Some (t, old) ->
  convertAssign k raw = inr x ->
  sql.Scan convertAssign (Some (k, l)) (Some raw) h =
  Ret None (<[l := (t, VAggr [sql.field_value k x; VBool true])]> h).
Proof.
  intros Hl C. unfold sql.Scan. rewrite C.
  step ltac:(apply (run_store _ _ _ _ _ Hl)). reflexivity.
Qed.

Lemma run_sql_Scan_err k l t f b raw msg (h : heap) :
  h !! l = Some (t, VAggr [f; b]) ->
  convertAssign k raw = inl msg ->
  sql.Scan convertAssign (Some (k, l)) (Some raw) h =
  Ret (Some (ConversionError msg))
      (<[l := (t, VAggr [f; VBool (sql.valid_on_error k)])]> h).
Proof.
  intros Hl C. unfold sql.Scan. rewrite C.
  step ltac:(apply (run_load _ _ _ Hl)). simpl.
  step ltac:(apply (run_store _ _ _ _ _ Hl)). reflexivity.
Qed.

End HoldersRun.

Lemma run_sql_Value k l t f valid (h : heap) :
  h !! l = Some (t, VAggr [f; VBool valid]) ->
  sql.Value (Some (k, l)) h =
  Ret (if valid then (Some (sql.value_type k, f), None) else (None, None)) h.
Proof.
  intros Hl. unfold sql.Value.
  step ltac:(apply (run_load _ _ _ Hl)). simpl. destruct valid; reflexivity.
Qed.

Lemma zero_holder k :
  zero (sql.holder_type k) = VAggr [zero (sql.field_type k); VBool false].
Proof. destruct k; reflexivity. Qed.

Lemma convertOp_scalar intSize T k :
  scalar_kind T = Some k ->
  exists op, reflect.convertOp intSize T (sql.value_type k) = Some op /\
    forall x, op (sql.field_value k x) = declared_value intSize T (sql.field_value k x).
Proof.
  unfold scalar_kind. case_bool_decide as E.
  - intros [= <-]. subst T. eexists. split; [reflexivity|]. intros x. reflexivity.
  - unfold reflect.convertOp, declared_value.
    pose proof (kind_underlying T) as K.
    destruct (underlying T) as [b | | | | | | | | |] eqn:U; try discriminate.
    simpl in K. rewrite <- K.
    destruct b; simpl; intros [= <-]; simpl;
      eexists; (split; [reflexivity|]); intros x; reflexivity.
Qed.

Lemma run_Type_Elem t e h :
  reflect.elem_of t = Some e -> reflect.Type_Elem (Some t) h = Ret (Some e) h.
Proof. intros E. unfold reflect.Type_Elem. rewrite E. reflexivity. Qed.

(** ** [NullValue.Scan], run on a live destination *)

Section ScanRun.

Variable intSize : Z.
Variable convertAssign : forall k : sql.Null, GoType * value -> string + sql.native k.

Lemma Scan_absent_run (h : heap) v ty p tp old k :
  h !! v = Some (sqlnull.NullValue, VAggr [VIface (Some (ty, VPtr (Some p)))]) ->
  resolve ty = Some k ->
  h !! p = Some (tp, old) ->
  exists h', sqlnull.Scan intSize convertAssign (Some v) None h = Ret None h'
     /\ h' !! p = Some (tp, VPtr None)
     /\ (forall l c, l <> p -> h !! l = Some c -> h' !! l = Some c).
Proof.
  intros Hv Hr Hp.
  unfold resolve in Hr. destruct (innermost ty) as [T|] eqn:I; [|discriminate].
  destruct (innermost_Some _ _ I) as (e & Kty & Ety & Ke & Ee & Ue).
  assert (resolve ty = Some k) as Hr' by (unfold resolve; rewrite I; exact Hr).
  pose proof (live_not_fresh _ _ _ Hp) as Np.
  eexists. split; [| split].
  - unfold sqlnull.Scan, sqlnull.target_of.
    step ltac:(step ltac:(apply (run_load _ _ _ Hv)); simpl; reflexivity).
    step ltac:(apply (validate_supported _ _ _ _ Hr')).
    rewrite zero_holder.
    step ltac:(eapply run_sql_Scan_nil; lookup_heap).
    step ltac:(apply (run_Elem_pointer _ _ _ _ Kty Ety)).
    step ltac:(eapply run_sql_Value; lookup_heap).
    step ltac:(apply (run_Type_Elem _ _ _ Ety)).
    step ltac:(apply run_ret).
    step ltac:(eapply run_Set; [apply directlyAssignable_refl | lookup_heap]).
    rewrite (zero_Ptr _ Ke). reflexivity.
  - lookup_heap.
  - intros l c Nl Hl. pose proof (live_not_fresh _ _ _ Hl).
    rewrite !lookup_insert_ne by auto. assumption.
Qed.

Lemma Scan_present_run (h : heap) v ty p e T inner k raw x :
  h !! v = Some (sqlnull.NullValue, VAggr [VIface (Some (ty, VPtr (Some p)))]) ->
  innermost ty = Some T -> scalar_kind T = Some k ->
  reflect.elem_of ty = Some e ->
  h !! p = Some (e, VPtr inner) ->
  (forall q, inner = Some q -> exists old, h !! q = Some (T, old)) ->
  convertAssign k raw = inr x ->
  exists h' q, sqlnull.Scan intSize convertAssign (Some v) (Some raw) h = Ret None h'
     /\ h' !! p = Some (e, VPtr (Some q))
     /\ h' !! q = Some (T, declared_value intSize T (sql.field_value k x))
     /\ match inner with None => h !! q = None | Some q0 => q = q0 end
     /\ (forall l c, l <> p -> l <> q -> h !! l = Some c -> h' !! l = Some c).
Proof.
  intros Hv I Hk Ety' Hp Hq C.
  destruct (innermost_Some _ _ I) as (e' & Kty & Ety & Ke & Ee & Ue).
  rewrite Ety' in Ety. injection Ety as <-.
  assert (resolve ty = Some k) as Hr by (unfold resolve; rewrite I; exact Hk).
  destruct (convertOp_scalar intSize _ _ Hk) as (op & Hop & Hval).
  pose proof (live_not_fresh _ _ _ Hp) as Np.
  assert (Kvar : reflect.kind_of T <> reflect.Ptr) by (eapply scalar_kind_not_Ptr; eauto).
  destruct inner as [q|].
  - destruct (Hq q eq_refl) as [old Hq'].
    assert (q <> p) as Nqp.
    { intros ->. rewrite Hp in Hq'. injection Hq' as -> _. contradiction. }
    pose proof (live_not_fresh _ _ _ Hq') as Nq.
    exists (<[q := (T, declared_value intSize T (sql.field_value k x))]>
             (<[fresh (dom h) := (sql.holder_type k, VAggr [sql.field_value k x; VBool true])]>
               (<[fresh (dom h) := (sql.holder_type k, zero (sql.holder_type k))]> h))), q.
    split; [| split; [| split; [| split]]].
    + unfold sqlnull.Scan, sqlnull.target_of.
      step ltac:(step ltac:(apply (run_load _ _ _ Hv)); simpl; reflexivity).
      step ltac:(apply (validate_supported _ _ _ _ Hr)).
      step ltac:(eapply run_sql_Scan_ok; [lookup_heap | exact C]).
      step ltac:(apply (run_Elem_pointer _ _ _ _ Kty Ety')).
      step ltac:(eapply run_sql_Value; lookup_heap).
      step ltac:(eapply (run_Elem_var _ _ _ _ _ _ Ke Ee); lookup_heap).
      cbn [negb reflect.CanAddr].
      step ltac:(apply run_ret).
      step ltac:(eapply (run_Elem_var _ _ _ _ _ _ Ke Ee); lookup_heap).
      step ltac:(apply (run_Type_Elem _ _ _ Ety')).
      step ltac:(apply (run_Type_Elem _ _ _ Ee)).
      unfold reflect.Convert, reflect.ValueOf, reflect.contents.
      step ltac:(step ltac:(apply run_ret); cbn [fst snd]; rewrite Hop; apply run_ret).
      step ltac:(eapply run_Set; [apply directlyAssignable_refl | lookup_heap]).
      rewrite Hval. reflexivity.
    + lookup_heap.
    + lookup_heap.
    + reflexivity.
    + intros l c Nl Nl' Hl. pose proof (live_not_fresh _ _ _ Hl).
      rewrite !lookup_insert_ne by auto. assumption.
  - set (h1 := <[fresh (dom h) := (sql.holder_type k, zero (sql.holder_type k))]> h).
    set (h2 := <[fresh (dom h) := (sql.holder_type k, VAggr [sql.field_value k x; VBool true])]> h1).
    assert (h2 !! p = Some (e, VPtr None)) as Hp2 by (subst h1 h2; lookup_heap).
    assert (h2 !! fresh (dom h) = Some (sql.holder_type k, VAggr [sql.field_value k x; VBool true])) as Hl2
      by (subst h2; lookup_heap).
    pose proof (live_not_fresh _ _ _ Hp2) as Np2.
    pose proof (live_not_fresh _ _ _ Hl2) as Nl2.
    exists (<[fresh (dom h2) := (T, declared_value intSize T (sql.field_value k x))]>
             (<[p := (e, VPtr (Some (fresh (dom h2))))]>
               (<[fresh (dom h2) := (T, zero T)]> h2))), (fresh (dom h2)).
    split; [| split; [| split; [| split]]].
    + unfold sqlnull.Scan, sqlnull.target_of.
      step ltac:(step ltac:(apply (run_load _ _ _ Hv)); simpl; reflexivity).
      step ltac:(apply (validate_supported _ _ _ _ Hr)).
      step ltac:(eapply run_sql_Scan_ok; [lookup_heap | exact C]).
      step ltac:(apply (run_Elem_pointer _ _ _ _ Kty Ety')).
      step ltac:(eapply run_sql_Value; lookup_heap).
      fold h1. fold h2.
      step ltac:(apply (run_Elem_var _ _ _ _ _ _ Ke Ee Hp2)).
      cbn [negb reflect.CanAddr].
      step ltac:(
        step ltac:(apply (run_Type_Elem _ _ _ Ety'));
        step ltac:(apply (run_Type_Elem _ _ _ Ee));
        unfold reflect.New;
        step ltac:(step ltac:(apply run_alloc); apply run_ret);
        eapply run_Set; [apply (directlyAssignable_new _ _ Ue) | lookup_heap]).
      step ltac:(eapply (run_Elem_var _ _ _ _ _ _ Ke Ee); lookup_heap).
      step ltac:(apply (run_Type_Elem _ _ _ Ety')).
      step ltac:(apply (run_Type_Elem _ _ _ Ee)).
      unfold reflect.Convert, reflect.ValueOf, reflect.contents.
      step ltac:(step ltac:(apply run_ret); cbn [fst snd]; rewrite Hop; apply run_ret).
      step ltac:(eapply run_Set; [apply directlyAssignable_refl | lookup_heap]).
      rewrite Hval. reflexivity.
    + lookup_heap.
    + lookup_heap.
    + destruct (h !! fresh (dom h2)) as [c|] eqn:F; [|reflexivity].
      exfalso. pose proof (fresh_None h2) as F2.
      subst h2 h1. rewrite !lookup_insert_ne in F2 by auto. congruence.
    + intros l c Nl Nl' Hl. pose proof (live_not_fresh _ _ _ Hl).
      subst h2 h1. rewrite !lookup_insert_ne by auto. assumption.
Qed.
End ScanRun.

(** ** [NullValue.Scan] when it returns an error *)

Lemma no_error_bind {A B} (m : M A) (k : A -> M (option B)) :
  (forall a, no_error (k a)) -> no_error (m ≫= k).
Proof.
  intros H h b h'. unfold mbind, M_bind, bind.
  destruct (m h) as [a h1|why]; [apply H | discriminate].
Qed.

Lemma no_error_ret {A} : no_error (mret (M := M) (@None A)).
Proof. intros h a h'. discriminate. Qed.

Lemma target_of_heap v h t h' : sqlnull.target_of v h = Ret t h' -> h' = h.
Proof.
  unfold sqlnull.target_of. destruct v as [l|]; [|discriminate].
  unfold mbind, M_bind, bind, load. destruct (h !! l) as [[t0 x]|]; [|discriminate].
  simpl. destruct x as [| | | | | | | |els |]; try discriminate.
  destruct els as [|[] [|]]; try discriminate. intros [= _ <-]. reflexivity.
Qed.

Lemma contents_heap what x h c h' : reflect.contents what x h = Ret c h' -> h' = h.
Proof.
  destruct x; simpl; try discriminate.
  - unfold mbind, M_bind, bind, load. destruct (h !! ptr); [|discriminate].
    intros [= _ <-]. reflexivity.
  - intros [= _ <-]. reflexivity.
Qed.

Lemma Elem_heap x h a h' : reflect.Elem x h = Ret a h' -> h' = h.
Proof.
  unfold reflect.Elem. unfold mbind, M_bind, bind.
  destruct (reflect.contents _ x h) as [c h1|] eqn:C; [|discriminate].
  apply contents_heap in C. subst h1.
  destruct c as [t y]. simpl.
  destruct (reflect.kind_of t); try discriminate;
    destruct y as [| | | | |[q|] | | | |]; try discriminate;
    try (intros [= _ <-]; reflexivity).
  destruct (reflect.elem_of t); [|discriminate]. intros [= _ <-]. reflexivity.
Qed.

Ltac no_error_in H :=
  exfalso; revert H;
  lazymatch goal with
  | |- ?m ?h = Ret (Some ?a) ?h' -> False =>
      refine ((_ : no_error m) h a h');
      repeat (apply no_error_bind; intros ?); apply no_error_ret
  end.

(** After the holder has accepted the value, nothing returns an error. *)
Ltac after_holder H :=
  lazymatch type of H with
  | (?m ≫= _) ?h2 = _ =>
      let El := fresh "El" in
      destruct (m h2) as [? ?|?] eqn:El;
      [| rewrite (run_bind_panic _ _ _ _ El) in H; discriminate];
      pose proof (Elem_heap _ _ _ _ El); subst;
      rewrite (run_bind _ _ _ _ _ El) in H;
      erewrite run_bind in H by (eapply run_sql_Value; apply lookup_insert_eq);
      cbv beta iota in H; no_error_in H
  end.

Section ScanError.

Variable intSize : Z.
Variable convertAssign : forall k : sql.Null, GoType * value -> string + sql.native k.

Lemma Scan_error_run v src (h : heap) err h' :
  sqlnull.Scan intSize convertAssign v src h = Ret (Some err) h' ->
  exists ty x, sqlnull.target_of v h = Ret (Some (ty, x)) h /\ h ⊆ h' /\
    ((resolve ty = None /\ err = UnsupportedDestination (Some ty) /\ h' = h) \/
     (exists k raw msg, resolve ty = Some k /\ src = Some raw /\
        convertAssign k raw = inl msg /\ err = ConversionError msg)).
Proof.
  unfold sqlnull.Scan. intros H.
  destruct (sqlnull.target_of v h) as [target h0|why] eqn:Tg;
    [| rewrite (run_bind_panic _ _ _ _ Tg) in H; discriminate].
  pose proof (target_of_heap _ _ _ _ Tg) as ->.
  rewrite (run_bind _ _ _ _ _ Tg) in H.
  destruct target as [[ty x]|];
    [| rewrite (run_bind_panic _ _ _ _ (validate_nil h)) in H; discriminate].
  exists ty, x. split; [reflexivity|].
  destruct (resolve ty) as [k|] eqn:R.
  2:{ rewrite (run_bind _ _ _ _ _ (validate_unsupported ty x h R)) in H.
      cbv beta iota in H. injection H as <- <-. split; [reflexivity|].
      left. auto. }
  rewrite (run_bind _ _ _ _ _ (validate_supported ty x h k R)) in H.
  cbv beta iota in H. rewrite zero_holder in H.
  set (l1 := fresh (dom h)) in *.
  set (h1 := <[l1 := _]> h) in H.
  assert (h1 !! l1 = Some (sql.holder_type k, VAggr [zero (sql.field_type k); VBool false])) as Hl1
    by (subst h1; apply lookup_insert_eq).
  assert (h ⊆ h1) as Sub1 by (subst h1 l1; apply alloc_subseteq).
  destruct src as [raw|].
  - destruct (convertAssign k raw) as [msg|y] eqn:C.
    + rewrite (run_bind _ _ _ _ _ (run_sql_Scan_err convertAssign _ _ _ _ _ _ _ _ Hl1 C)) in H.
      cbv beta iota in H. injection H as <- <-. split.
      * subst h1. rewrite insert_insert_eq. apply alloc_subseteq.
      * right. exists k, raw, msg. auto.
    + rewrite (run_bind _ _ _ _ _ (run_sql_Scan_ok convertAssign _ _ _ _ _ _ _ Hl1 C)) in H.
      cbv beta iota in H. after_holder H.
  - rewrite (run_bind _ _ _ _ _ (run_sql_Scan_nil convertAssign _ _ _ _ _ Hl1)) in H.
    cbv beta iota in H. after_holder H.
Qed.
End ScanError.

(** ** [Target] and [Scanner], run *)

Lemma run_convertAssign_any l t old src (h : heap) :
  h !! l = Some (t, old) ->
  sql.convertAssign_any (Some l) src h = Ret None (<[l := (t, VIface src)]> h).
Proof.
  intros Hl. unfold sql.convertAssign_any.
  step ltac:(apply (run_store _ _ _ _ _ Hl)). reflexivity.
Qed.

Lemma built_mono (h0 h0' h1 h1' : heap) t y :
  built h0 h1 t y -> h0' ⊆ h0 -> h1 ⊆ h1' -> built h0' h1' t y.
Proof.
  intros B S0 S1.
  assert (forall l, h0 !! l = None -> h0' !! l = None) as N.
  { intros l Hl. destruct (h0' !! l) as [c|] eqn:E; [|reflexivity].
    rewrite (lookup_weaken _ _ _ _ E S0) in Hl. discriminate. }
  destruct B as [l H0 H1 _ | ty x k l R H0 H1 | ty x R].
  - pose proof (lookup_weaken _ _ _ _ H1 S1) as H1'.
    apply built_discard; auto.
    intros src. apply (run_convertAssign_any _ _ _ _ _ H1').
  - eapply built_adapter; eauto. apply (lookup_weaken _ _ _ _ H1 S1).
  - apply built_through; auto.
Qed.

Lemma Target_built t (h : heap) :
  exists y h', sqlnull.Target t h = Ret y h' /\ h ⊆ h' /\ built h h' t y.
Proof.
  destruct t as [[ty x]|].
  - destruct (resolve ty) as [k|] eqn:R.
    + set (h1 := <[fresh (dom h) := (sql.holder_type k, zero (sql.holder_type k))]> h).
      exists (Some (TPtr sqlnull.NullValue, VPtr (Some (fresh (dom h1))))),
             (<[fresh (dom h1) := (sqlnull.NullValue, VAggr [VIface (Some (ty, x))])]> h1).
      assert (h ⊆ h1) as S1 by apply alloc_subseteq.
      split; [| split].
      * unfold sqlnull.Target.
        step ltac:(apply (validate_supported _ _ _ _ R)).
        unfold sqlnull.New.
        step ltac:(step ltac:(apply run_alloc); apply run_ret).
        reflexivity.
      * etrans; [exact S1 | apply alloc_subseteq].
      * eapply built_adapter; eauto.
        -- destruct (h !! fresh (dom h1)) as [c|] eqn:E; [|reflexivity].
           pose proof (lookup_weaken _ _ _ _ E S1) as E1.
           rewrite fresh_None in E1. discriminate.
        -- apply lookup_insert_eq.
    + exists (Some (ty, x)), h. split; [| split].
      * unfold sqlnull.Target.
        step ltac:(apply (validate_unsupported _ _ _ R)). reflexivity.
      * reflexivity.
      * apply built_through; auto.
  - exists (Some (TPtr TInterface, VPtr (Some (fresh (dom h))))),
           (<[fresh (dom h) := (TInterface, VIface None)]> h).
    split; [| split].
    + unfold sqlnull.Target. step ltac:(apply run_alloc). reflexivity.
    + apply alloc_subseteq.
    + apply built_discard.
      * apply fresh_None.
      * apply lookup_insert_eq.
      * intros src. eapply run_convertAssign_any. apply lookup_insert_eq.
Qed.

Lemma Scanner_loop_built targets : forall (h : heap) acc,
  exists res h', sqlnull.Scanner_loop targets acc h = Ret (acc ++ res) h' /\
    h ⊆ h' /\ Forall2 (built h h') targets res.
Proof.
  induction targets as [|t rest IH]; intros h acc.
  - exists [], h. simpl. rewrite app_nil_r. split; [reflexivity|].
    split; [reflexivity | constructor].
  - destruct (Target_built t h) as (y & h1 & Ht & S1 & B).
    destruct (IH h1 (acc ++ [y])) as (res & h' & Hl & S' & F).
    exists (y :: res), h'. split; [| split].
    + simpl. step ltac:(exact Ht). rewrite Hl, <- app_assoc. reflexivity.
    + etrans; eassumption.
    + constructor.
      * eapply built_mono; [exact B | reflexivity | exact S'].
      * eapply Forall2_impl; [exact F|]. intros a b Bab.
        eapply built_mono; [exact Bab | exact S1 | reflexivity].
Qed.

Lemma Scanner_built targets (h : heap) :
  exists result h', sqlnull.Scanner targets h = Ret result h' /\
    length result = length targets /\ h ⊆ h' /\
    Forall2 (built h h') targets result.
Proof.
  destruct (Scanner_loop_built targets h []) as (res & h' & Hl & S & F).
  exists res, h'. repeat split; auto.
  symmetry. eapply Forall2_length; eauto.
Qed.

(** ** The resolver of the specification, shape by shape *)

Lemma innermost_pointers T : innermost (TPtr (TPtr T)) = Some T.
Proof. reflexivity. Qed.

Lemma innermost_not_pointer ty :
  reflect.kind_of ty <> reflect.Ptr -> innermost ty = None.
Proof.
  intros K. unfold innermost. rewrite <- (kind_underlying ty) in K.
  destruct (underlying ty); try reflexivity. contradiction K. reflexivity.
Qed.

Lemma innermost_pointer_to_other ty e :
  reflect.elem_of ty = Some e -> reflect.kind_of e <> reflect.Ptr ->
  innermost ty = None.
Proof.
  intros E K. unfold innermost.
  rewrite <- (elem_underlying ty) in E. rewrite <- (kind_underlying e) in K.
  destruct (underlying ty) as [| e' | | | | | | | |]; try reflexivity.
  simpl in E. injection E as ->.
  destruct (underlying e); try reflexivity. contradiction K. reflexivity.
Qed.

Lemma scalar_kind_pointer T : reflect.kind_of T = reflect.Ptr -> scalar_kind T = None.
Proof.
  intros K. destruct (scalar_kind T) as [k|] eqn:S; [|reflexivity].
  contradiction (scalar_kind_not_Ptr _ _ S).
Qed.

(** ** The claims *)

(** C1.  For a destination with a dynamic type, [validate] answers as the
    specification's resolver does: a destination that is a pointer to a
    pointer to [T] gets the holder that the fixed table gives for [T]
    (bool: NullBool; uint8: NullByte; int8, int16, uint16: NullInt16; int32,
    uint32: NullInt32; int64, uint64, int, uint: NullInt64; string:
    NullString; float32, float64: NullFloat64; time.Time: NullTime), newly
    allocated, with the target's type and no error; every other destination
    (not a pointer, a pointer to something that is not a pointer, a third
    level of pointers, an innermost type outside the table) gets the
    UnsupportedDestination error, and the store is not changed. *)
Theorem validate_fixed_table ty x (h : heap) :
  sqlnull.validate (Some (ty, x)) h =
    match resolve ty with
    | Some k =>
        Ret (Some (k, fresh (dom h)), Some ty, None)
            (<[fresh (dom h) := (sql.holder_type k, zero (sql.holder_type k))]> h)
    | None => Ret (None, None, Some (UnsupportedDestination (Some ty))) h
    end
  /\ (forall T, resolve (TPtr (TPtr T)) = scalar_kind T)
  /\ (forall b, scalar_kind (TBasic b) = fixed_table b)
  /\ scalar_kind sql.time_Time = Some sql.NullTime
  /\ (reflect.kind_of ty <> reflect.Ptr -> resolve ty = None)
  /\ (forall e, reflect.elem_of ty = Some e -> reflect.kind_of e <> reflect.Ptr ->
        resolve ty = None)
  /\ (forall T, innermost ty = Some T -> reflect.kind_of T = reflect.Ptr ->
        resolve ty = None)
  /\ (forall T, innermost ty = Some T -> scalar_kind T = None -> resolve ty = None).
Proof.
  split; [apply validate_run|].
  split; [reflexivity|].
  split; [intros b; destruct b; reflexivity|].
  split; [reflexivity|].
  split; [intros K; unfold resolve; rewrite (innermost_not_pointer _ K); reflexivity|].
  split.
  { intros e E K. unfold resolve.
    rewrite (innermost_pointer_to_other _ _ E K). reflexivity. }
  split.
  { intros T I K. unfold resolve. rewrite I. apply scalar_kind_pointer, K. }
  intros T I S. unfold resolve. rewrite I. exact S.
Qed.

(** A [***bool] is refused by the seventh part of C1, a [**uint16] accepted
    by the first. *)
Lemma validate_fixed_table_witness :
  resolve (TPtr (TPtr (TPtr (TBasic go.bool)))) = None /\
  sqlnull.validate (Some (TPtr (TPtr (TBasic go.uint16)), VPtr None)) ∅ =
    Ret (Some (sql.NullInt16, fresh (dom (∅ : heap))),
         Some (TPtr (TPtr (TBasic go.uint16))), None)
        (<[fresh (dom (∅ : heap)) :=
             (sql.holder_type sql.NullInt16, zero (sql.holder_type sql.NullInt16))]> ∅).
Proof.
  split.
  - apply (proj1 (proj2 (proj2 (proj2 (proj2 (proj2 (proj2
      (validate_fixed_table (TPtr (TPtr (TPtr (TBasic go.bool)))) (VPtr None) ∅)))))))
      (TPtr (TBasic go.bool))); reflexivity.
  - exact (proj1 (validate_fixed_table (TPtr (TPtr (TBasic go.uint16))) (VPtr None) ∅)).
Defined.

(** C5, the counterexample.  [type MyTime time.Time] has the struct of
    [time.Time] as its underlying type, yet [validate] refuses a [**MyTime]
    where it accepts a [**time.Time]: the innermost type is compared with
    [time.Time] itself. *)
Lemma validate_named_time_refused :
  classification (sqlnull.validate (Some (TPtr (TPtr MyTime), VPtr None)) ∅) <>
  classification (sqlnull.validate (Some (TPtr (TPtr sql.time_Time), VPtr None)) ∅) /\
  underlying MyTime = underlying sql.time_Time /\
  verdict (sqlnull.validate (Some (TPtr (TPtr MyTime), VPtr None)) ∅) =
    Some (None, None, Some (UnsupportedDestination (Some (TPtr (TPtr MyTime))))) /\
  verdict (sqlnull.validate (Some (TPtr (TPtr sql.time_Time), VPtr None)) ∅) =
    Some (Some sql.NullTime, Some (TPtr (TPtr sql.time_Time)), None).
Proof. split; [discriminate | repeat split; reflexivity]. Qed.

(** C5, as the code has it.  A declared type over one of the predeclared
    types of the fixed table is classified as that predeclared type is,
    whatever chain of declarations leads to it; a declared type whose
    underlying type is a struct, the struct of [time.Time] included, is
    refused unless it is [time.Time] itself. *)
Theorem validate_named_scalar pkg name d x (h : heap) :
  (forall b k, underlying d = TBasic b -> fixed_table b = Some k ->
     verdict (sqlnull.validate (Some (TPtr (TPtr (TNamed pkg name d)), x)) h) =
       Some (Some k, Some (TPtr (TPtr (TNamed pkg name d))), None) /\
     verdict (sqlnull.validate (Some (TPtr (TPtr (TBasic b)), x)) h) =
       Some (Some k, Some (TPtr (TPtr (TBasic b))), None)) /\
  (reflect.kind_of d = reflect.Struct -> TNamed pkg name d <> sql.time_Time ->
     verdict (sqlnull.validate (Some (TPtr (TPtr (TNamed pkg name d)), x)) h) =
       Some (None, None,
             Some (UnsupportedDestination (Some (TPtr (TPtr (TNamed pkg name d))))))).
Proof.
  split.
  - intros b k U F. rewrite !validate_run.
    assert (resolve (TPtr (TPtr (TBasic b))) = Some k) as ->.
    { unfold resolve, scalar_kind. rewrite innermost_pointers.
      rewrite bool_decide_eq_false_2 by discriminate. exact F. }
    assert (resolve (TPtr (TPtr (TNamed pkg name d))) = Some k) as ->.
    { unfold resolve, scalar_kind. rewrite innermost_pointers.
      simpl underlying. rewrite U.
      case_bool_decide as E; [|exact F].
      injection E as _ _ ->. discriminate U. }
    split; reflexivity.
  - intros K N. rewrite validate_run.
    assert (resolve (TPtr (TPtr (TNamed pkg name d))) = None) as ->; [|reflexivity].
    unfold resolve, scalar_kind. rewrite innermost_pointers.
    simpl underlying. rewrite bool_decide_eq_false_2 by exact N.
    rewrite <- (kind_underlying d) in K.
    destruct (underlying d) as [b | | | | | | | | |]; try reflexivity.
    destruct b; discriminate K.
Qed.

(** [**CustomBool] is classified as [**bool] is; [**MyTime] is refused. *)
Lemma validate_named_scalar_witness :
  (verdict (sqlnull.validate (Some (TPtr (TPtr CustomBool), VPtr None)) ∅) =
     Some (Some sql.NullBool, Some (TPtr (TPtr CustomBool)), None) /\
   verdict (sqlnull.validate (Some (TPtr (TPtr (TBasic go.bool)), VPtr None)) ∅) =
     Some (Some sql.NullBool, Some (TPtr (TPtr (TBasic go.bool))), None)) /\
  verdict (sqlnull.validate (Some (TPtr (TPtr MyTime), VPtr None)) ∅) =
    Some (None, None, Some (UnsupportedDestination (Some (TPtr (TPtr MyTime))))).
Proof.
  split.
  - apply (proj1 (validate_named_scalar "sqlnull_test" "CustomBool"
                    (TBasic go.bool) (VPtr None) ∅) go.bool sql.NullBool);
      reflexivity.
  - apply (proj2 (validate_named_scalar "main" "MyTime" sql.time_Time (VPtr None) ∅));
      [reflexivity | discriminate].
Defined.

(** C8.  What [validate] decides depends on the dynamic type of the target
    only, not on its value and not on the store, so it is the same at every
    invocation; and an invocation changes no variable: the store it leaves
    has every earlier variable as it was, with at most the new holder added,
    and is the same store when the target is refused. *)
Theorem validate_pure (a b : any) (h1 h2 : heap) :
  reflect.TypeOf a = reflect.TypeOf b ->
  verdict (sqlnull.validate a h1) = verdict (sqlnull.validate b h2) /\
  (forall r h', sqlnull.validate a h1 = Ret r h' ->
     h1 ⊆ h' /\ (forall e, r.2 = Some e -> h' = h1)).
Proof.
  intros E. split.
  - destruct a as [[ta xa]|], b as [[tb xb]|]; try discriminate E.
    + injection E as ->. rewrite !validate_run.
      destruct (resolve tb); reflexivity.
    + reflexivity.
  - intros r h' V. destruct a as [[ta xa]|]; [|discriminate V].
    rewrite validate_run in V. destruct (resolve ta); injection V as <- <-.
    + split; [apply alloc_subseteq | discriminate].
    + split; [reflexivity | reflexivity].
Qed.

(** Two [**CustomBool] targets, one nil and one not, in two stores. *)
Lemma validate_pure_witness :
  verdict (sqlnull.validate dest_bool heap_set) =
  verdict (sqlnull.validate (Some (TPtr (TPtr CustomBool), VPtr None)) ∅).
Proof.
  apply (validate_pure dest_bool (Some (TPtr (TPtr CustomBool), VPtr None))
           heap_set ∅). reflexivity.
Defined.

Section Claims.

Variable intSize : Z.
Variable convertAssign : forall k : sql.Null, GoType * value -> string + sql.native k.

(** C9.  [New(nil)] builds a [NullValue] without any check, and [Scan] on it
    panics with a nil dereference, inside [validate], where [Kind] is called
    on the nil [reflect.Type]; for a target that is not nil [validate]
    always returns. *)
Theorem Scan_nil_target_panics (src : any) (h : heap) :
  exists v h1,
    sqlnull.New None h = Ret (Some v) h1 /\
    sqlnull.Scan intSize convertAssign (Some v) src h1 = Panic nil_dereference /\
    sqlnull.validate None h1 = Panic nil_dereference /\
    (forall ty x (h2 : heap), exists r h3, sqlnull.validate (Some (ty, x)) h2 = Ret r h3).
Proof.
  exists (fresh (dom h)), (<[fresh (dom h) := (sqlnull.NullValue, VAggr [VIface None])]> h).
  split; [reflexivity|]. split; [| split; [reflexivity|]].
  - unfold sqlnull.Scan, sqlnull.target_of.
    step ltac:(step ltac:(eapply run_load; apply lookup_insert_eq); simpl; reflexivity).
    apply run_bind_panic. reflexivity.
  - intros ty x h2. rewrite validate_run. destruct (resolve ty); eauto.
Qed.

End Claims.

(** C10.  [Target] is idempotent: what it returns is not nil and is not
    accepted by [validate], so that a second application returns it
    unchanged and leaves the store as it is. *)
Theorem Target_idempotent (x : any) (h : heap) :
  exists y h1,
    sqlnull.Target x h = Ret y h1 /\
    sqlnull.Target y h1 = Ret y h1 /\
    is_Some y /\
    (forall h2 : heap, sqlnull.validate y h2 =
       Ret (None, None, Some (UnsupportedDestination (reflect.TypeOf y))) h2).
Proof.
  destruct (Target_built x h) as (y & h1 & Ht & _ & B).
  exists y, h1. split; [exact Ht|].
  assert (exists ty v, y = Some (ty, v) /\ resolve ty = None) as (ty & v & -> & R).
  { destruct B; eauto. }
  split; [| split].
  - unfold sqlnull.Target.
    step ltac:(apply (validate_unsupported _ _ _ R)). reflexivity.
  - eauto.
  - intros h2. apply (validate_unsupported _ _ _ R).
Qed.

(** C6.  [Scanner] never panics and returns no error: it returns one result
    for each target, in the order of the targets, where a nil target has
    become a new [*any] that the row-fetch engine fills with any column
    value without an error, a target that [validate] accepts a new
    [*NullValue] holding it, and any other target is returned as it is; the
    variables that existed before are unchanged. *)
Theorem Scanner_positional (targets : list any) (h : heap) :
  exists result h',
    sqlnull.Scanner targets h = Ret result h' /\
    length result = length targets /\
    h ⊆ h' /\
    Forall2 (built h h') targets result /\
    (forall i target, targets !! i = Some target ->
       exists y, result !! i = Some y /\ built h h' target y).
Proof.
  destruct (Scanner_built targets h) as (result & h' & Hs & L & S & F).
  exists result, h'. repeat split; auto.
  intros i target Hi. eapply Forall2_lookup_l; eauto.
Qed.

Section ScanClaims.

Variable intSize : Z.
Variable convertAssign : forall k : sql.Null, GoType * value -> string + sql.native k.

Lemma Scan_conversion_error_run (h : heap) v ty x k raw msg :
  h !! v = Some (sqlnull.NullValue, VAggr [VIface (Some (ty, x))]) ->
  resolve ty = Some k ->
  convertAssign k raw = inl msg ->
  exists h', sqlnull.Scan intSize convertAssign (Some v) (Some raw) h =
             Ret (Some (ConversionError msg)) h'.
Proof.
  intros Hv R C. eexists.
  unfold sqlnull.Scan, sqlnull.target_of.
  step ltac:(step ltac:(apply (run_load _ _ _ Hv)); simpl; reflexivity).
  step ltac:(apply (validate_supported _ _ _ _ R)).
  rewrite zero_holder.
  step ltac:(eapply run_sql_Scan_err; [apply lookup_insert_eq | exact C]).
  reflexivity.
Qed.

(** C2.  A [NullValue] around a supported destination, whatever the
    destination's variable holds (nil, or a pointer to storage allocated
    earlier with a value in it): [Scan] of the SQL null returns no error and
    leaves the nil pointer in the destination's variable; no other variable
    that existed changes. *)
Theorem Scan_null_clears (h : heap) v ty p tp old k :
  h !! v = Some (sqlnull.NullValue, VAggr [VIface (Some (ty, VPtr (Some p)))]) ->
  resolve ty = Some k ->
  h !! p = Some (tp, old) ->
  exists h',
    sqlnull.Scan intSize convertAssign (Some v) None h = Ret None h' /\
    h' !! p = Some (tp, VPtr None) /\
    (forall l c, l <> p -> h !! l = Some c -> h' !! l = Some c).
Proof.
  intros Hv R Hp.
  destruct (Scan_absent_run intSize convertAssign _ _ _ _ _ _ _ Hv R Hp)
    as (h' & Hs & H1 & Frame).
  exists h'. split; [exact Hs|]. split; [exact H1|]. exact Frame.
Qed.

(** C3.  A [NullValue] around a destination [**T], [T] of any supported
    kind, declared types included, and a column value that the holder for
    [T] converts to [x]: [Scan] returns no error, the destination's variable
    holds a pointer that is not nil, and the variable it points to has type
    [T] and holds [x] converted to [T]. *)
Theorem Scan_value_converts (h : heap) v ty p e T inner k raw x :
  h !! v = Some (sqlnull.NullValue, VAggr [VIface (Some (ty, VPtr (Some p)))]) ->
  innermost ty = Some T -> scalar_kind T = Some k ->
  reflect.elem_of ty = Some e ->
  h !! p = Some (e, VPtr inner) ->
  (forall q, inner = Some q -> exists old, h !! q = Some (T, old)) ->
  convertAssign k raw = inr x ->
  exists h' q,
    sqlnull.Scan intSize convertAssign (Some v) (Some raw) h = Ret None h' /\
    h' !! p = Some (e, VPtr (Some q)) /\
    h' !! q = Some (T, declared_value intSize T (sql.field_value k x)).
Proof.
  intros Hv I S E Hp Hq C.
  destruct (Scan_present_run intSize convertAssign _ _ _ _ _ _ _ _ _ _
              Hv I S E Hp Hq C) as (h' & q & Hs & H1 & H2 & _).
  eauto.
Qed.

(** C4.  When [Scan] returns an error, every variable that existed before
    the call has its type and contents unchanged, the destination among
    them; the error is the one of [validate], and then the store is the
    same, or the one of the holder's conversion. *)
Theorem Scan_error_untouched v src (h : heap) err h' :
  sqlnull.Scan intSize convertAssign v src h = Ret (Some err) h' ->
  (forall l c, h !! l = Some c -> h' !! l = Some c) /\
  ((exists T, err = UnsupportedDestination T /\ h' = h) \/
   (exists msg, err = ConversionError msg)).
Proof.
  intros H.
  destruct (Scan_error_run intSize convertAssign _ _ _ _ _ H)
    as (ty & x & _ & Sub & [(_ & -> & ->) | (k & raw & msg & _ & _ & _ & ->)]).
  - split; eauto.
  - split; [| eauto]. intros l c Hl. exact (lookup_weaken _ _ _ _ Hl Sub).
Qed.

(** C7, as the code has it.  After a call of [Scan] that returned no error,
    on a well-typed destination: for the SQL null the destination's variable
    holds nil; for a column value it holds a pointer to a variable of type
    [T] holding the converted value, which is a new variable when the
    destination held nil before, and the variable the destination already
    pointed to, overwritten, when it did not. *)
Theorem Scan_invariant (h h' : heap) v ty p e T inner k src :
  h !! v = Some (sqlnull.NullValue, VAggr [VIface (Some (ty, VPtr (Some p)))]) ->
  innermost ty = Some T -> scalar_kind T = Some k ->
  reflect.elem_of ty = Some e ->
  h !! p = Some (e, VPtr inner) ->
  (forall q, inner = Some q -> exists old, h !! q = Some (T, old)) ->
  sqlnull.Scan intSize convertAssign (Some v) src h = Ret None h' ->
  match src with
  | None => h' !! p = Some (e, VPtr None)
  | Some raw =>
      exists x q,
        convertAssign k raw = inr x /\
        h' !! p = Some (e, VPtr (Some q)) /\
        h' !! q = Some (T, declared_value intSize T (sql.field_value k x)) /\
        match inner with
        | None => h !! q = None
        | Some q0 => q = q0
        end
  end.
Proof.
  intros Hv I S E Hp Hq H.
  assert (resolve ty = Some k) as R by (unfold resolve; rewrite I; exact S).
  destruct src as [raw|].
  - destruct (convertAssign k raw) as [msg|x] eqn:C.
    + destruct (Scan_conversion_error_run _ _ _ _ _ _ _ Hv R C) as [h'' H''].
      rewrite H'' in H. discriminate H.
    + destruct (Scan_present_run intSize convertAssign _ _ _ _ _ _ _ _ _ _
                  Hv I S E Hp Hq C) as (h'' & q & Hs & H1 & H2 & H3 & _).
      rewrite Hs in H. injection H as <-. exists x, q. auto.
  - destruct (Scan_absent_run intSize convertAssign _ _ _ _ _ _ _ Hv R Hp)
      as (h'' & Hs & H1 & _).
    rewrite Hs in H. injection H as <-. exact H1.
Qed.

End ScanClaims.

(** ** The claims at the sample programs *)

(** The field points at a [CustomBool] holding [true]; the column is null. *)
Lemma Scan_null_clears_witness :
  heap_set !! 1%positive = Some (TPtr CustomBool, VPtr (Some 2%positive)) /\
  exists h',
    sqlnull.Scan 64 direct_convertAssign (Some 3%positive) None heap_set = Ret None h' /\
    h' !! 1%positive = Some (TPtr CustomBool, VPtr None) /\
    (forall l c, l <> 1%positive -> heap_set !! l = Some c -> h' !! l = Some c).
Proof.
  split; [reflexivity|].
  apply (Scan_null_clears 64 direct_convertAssign heap_set 3%positive
           (TPtr (TPtr CustomBool)) 1%positive (TPtr CustomBool)
           (VPtr (Some 2%positive)) sql.NullBool); reflexivity.
Defined.

(** The field is nil; the column holds [true]. *)
Lemma Scan_value_converts_witness :
  exists h' q,
    sqlnull.Scan 64 direct_convertAssign (Some 3%positive) (Some raw_true) heap_nil =
      Ret None h' /\
    h' !! 1%positive = Some (TPtr CustomBool, VPtr (Some q)) /\
    h' !! q = Some (CustomBool, VBool true).
Proof.
  apply (Scan_value_converts 64 direct_convertAssign heap_nil 3%positive
           (TPtr (TPtr CustomBool)) 1%positive (TPtr CustomBool) CustomBool
           None sql.NullBool raw_true true); try reflexivity.
  intros q Hq. discriminate Hq.
Defined.

(** A text column scanned into the [CustomBool] field: the holder refuses
    it, and the field still points at [true]. *)
Lemma Scan_error_untouched_witness :
  match sqlnull.Scan 64 direct_convertAssign (Some 3%positive) (Some raw_text) heap_set with
  | Ret (Some err) h' =>
      (forall l c, heap_set !! l = Some c -> h' !! l = Some c) /\
      ((exists T, err = UnsupportedDestination T /\ h' = heap_set) \/
       (exists msg, err = ConversionError msg))
  | _ => False
  end.
Proof.
  destruct (sqlnull.Scan 64 direct_convertAssign (Some 3%positive) (Some raw_text) heap_set)
    as [[err|] h'|why] eqn:E.
  - exact (Scan_error_untouched 64 direct_convertAssign _ _ _ _ _ E).
  - vm_compute in E. discriminate E.
  - vm_compute in E. discriminate E.
Defined.

(** C7, the counterexample.  The field points at the [CustomBool] variable
    at address 2, which holds [true]; the column holds [false].  [Scan]
    returns no error and the field still points at address 2, a variable
    that existed before the call and now holds [false]: the storage is the
    old one, overwritten, not a new one. *)
Lemma Scan_reuses_storage :
  exists h',
    sqlnull.Scan 64 direct_convertAssign (Some 3%positive) (Some raw_false) heap_set =
      Ret None h' /\
    ~ nil_or_fresh heap_set h' 1%positive /\
    heap_set !! 1%positive = Some (TPtr CustomBool, VPtr (Some 2%positive)) /\
    heap_set !! 2%positive = Some (CustomBool, VBool true) /\
    h' !! 1%positive = Some (TPtr CustomBool, VPtr (Some 2%positive)) /\
    h' !! 2%positive = Some (CustomBool, VBool false).
Proof.
  destruct (sqlnull.Scan 64 direct_convertAssign (Some 3%positive) (Some raw_false) heap_set)
    as [[err|] h'|why] eqn:E; try (vm_compute in E; discriminate E).
  exists h'. split; [reflexivity|]. vm_compute in E. injection E as <-.
  split; [| repeat split; reflexivity].
  intros (tp & inner & H1 & H2). vm_compute in H1. injection H1 as _ <-.
  vm_compute in H2. discriminate H2.
Qed.

(** The same run, read by the invariant. *)
Lemma Scan_invariant_witness :
  match sqlnull.Scan 64 direct_convertAssign (Some 3%positive) (Some raw_false) heap_set with
  | Ret None h' =>
      exists x q,
        direct_convertAssign sql.NullBool raw_false = inr x /\
        h' !! 1%positive = Some (TPtr CustomBool, VPtr (Some q)) /\
        h' !! q = Some (CustomBool, declared_value 64 CustomBool (VBool x)) /\
        q = 2%positive
  | _ => False
  end.
Proof.
  destruct (sqlnull.Scan 64 direct_convertAssign (Some 3%positive) (Some raw_false) heap_set)
    as [[err|] h'|why] eqn:E; try (vm_compute in E; discriminate E).
  apply (Scan_invariant 64 direct_convertAssign heap_set h' 3%positive
           (TPtr (TPtr CustomBool)) 1%positive (TPtr CustomBool) CustomBool
           (Some 2%positive) sql.NullBool (Some raw_false));
    try reflexivity; [| exact E].
  intros q [= <-]. exists (VBool true). reflexivity.
Defined.

(** A field, nil and the alien of the tests, in this order. *)
Lemma Scanner_positional_witness :
  exists result h',
    sqlnull.Scanner sample_targets heap_set = Ret result h' /\
    length result = length sample_targets /\
    heap_set ⊆ h' /\
    Forall2 (built heap_set h') sample_targets result /\
    (forall i target, sample_targets !! i = Some target ->
       exists y, result !! i = Some y /\ built heap_set h' target y).
Proof. exact (Scanner_positional sample_targets heap_set). Defined.

(** ** The tests of the package and some conversions, run *)

(** [TestUnsupportedType]: [sqlnull.New(some).Scan(99)] returns an error. *)
Example test_unsupported_type :
  (v ← sqlnull.New some_int;
   sqlnull.Scan 64 direct_convertAssign v (Some (TBasic go.int, VInt 99))) ∅ =
  Ret (Some (UnsupportedDestination (Some (TBasic go.int))))
      {[ 1%positive := (sqlnull.NullValue, VAggr [VIface some_int]) ]}.
Proof. vm_compute. reflexivity. Qed.

(** [TestUnsupportedqlNullValued]: [&alien] goes through [Target] as it is. *)
Example test_alien_passes_through (h : heap) : sqlnull.Target alien h = Ret alien h.
Proof. reflexivity. Qed.

(** An int16 column of 300 in an [int8] destination, and one of -1 in a
    [uint16] destination: Go's conversion wraps. *)
Example int8_wraps : declared_value 64 (TBasic go.int8) (VInt 300) = VInt 44.
Proof. reflexivity. Qed.

Example uint16_wraps : declared_value 64 (TBasic go.uint16) (VInt (-1)) = VInt 65535.
Proof. reflexivity. Qed.

(** ** More of the package: properties *)

Section ScanMore.

Variable intSize : Z.
Variable convertAssign : forall k : sql.Null, GoType * value -> string + sql.native k.

(** X1.  [New] checks nothing, and the check comes with [Scan]: for a target
    whose type [validate] refuses, [New] followed by [Scan] returns the
    UnsupportedDestination error for that type, whatever the column value,
    and the store has gained the [NullValue] and nothing else. *)
Theorem New_Scan_unsupported ty x src (h : heap) :
  resolve ty = None ->
  (v ← sqlnull.New (Some (ty, x)); sqlnull.Scan intSize convertAssign v src) h =
  Ret (Some (UnsupportedDestination (Some ty)))
      (<[fresh (dom h) := (sqlnull.NullValue, VAggr [VIface (Some (ty, x))])]> h).
Proof.
  intros R. unfold sqlnull.New.
  step ltac:(step ltac:(apply run_alloc); apply run_ret).
  unfold sqlnull.Scan, sqlnull.target_of.
  step ltac:(step ltac:(eapply run_load; apply lookup_insert_eq); simpl; reflexivity).
  step ltac:(apply (validate_unsupported _ _ _ R)).
  reflexivity.
Qed.

(** X2.  On a live, well-typed destination of a supported type [Scan] never
    panics.  It returns no error for the SQL null and for a column value the
    holder converts; for a value the holder refuses it returns the holder's
    error, and the destination's variable and the variable it points to are
    as before. *)
Theorem Scan_outcome (h : heap) v ty p e T inner k src :
  h !! v = Some (sqlnull.NullValue, VAggr [VIface (Some (ty, VPtr (Some p)))]) ->
  innermost ty = Some T -> scalar_kind T = Some k ->
  reflect.elem_of ty = Some e ->
  h !! p = Some (e, VPtr inner) ->
  (forall q, inner = Some q -> exists old, h !! q = Some (T, old)) ->
  exists r h',
    sqlnull.Scan intSize convertAssign (Some v) src h = Ret r h' /\
    match src with
    | None => r = None
    | Some raw =>
        match convertAssign k raw with
        | inr _ => r = None
        | inl msg =>
            r = Some (ConversionError msg) /\
            h' !! p = Some (e, VPtr inner) /\
            (forall q, inner = Some q -> h' !! q = h !! q)
        end
    end.
Proof.
  intros Hv I S E Hp Hq.
  assert (resolve ty = Some k) as R by (unfold resolve; rewrite I; exact S).
  destruct src as [raw|].
  - destruct (convertAssign k raw) as [msg|x] eqn:C.
    + exists (Some (ConversionError msg)).
      pose proof (live_not_fresh _ _ _ Hp) as Np.
      eexists. split; [| split; [reflexivity | split]].
      * unfold sqlnull.Scan, sqlnull.target_of.
        step ltac:(step ltac:(apply (run_load _ _ _ Hv)); simpl; reflexivity).
        step ltac:(apply (validate_supported _ _ _ _ R)).
        rewrite zero_holder.
        step ltac:(eapply run_sql_Scan_err; [apply lookup_insert_eq | exact C]).
        reflexivity.
      * lookup_heap.
      * intros q ->. destruct (Hq q eq_refl) as [old Hq'].
        pose proof (live_not_fresh _ _ _ Hq').
        rewrite !lookup_insert_ne by auto. reflexivity.
    + destruct (Scan_present_run intSize convertAssign _ _ _ _ _ _ _ _ _ _
                  Hv I S E Hp Hq C) as (h' & q & Hs & _).
      exists None, h'. auto.
  - destruct (Scan_absent_run intSize convertAssign _ _ _ _ _ _ _ Hv R Hp)
      as (h' & Hs & _).
    exists None, h'. auto.
Qed.

(** X3.  A nil pointer of a supported type [**T] is a target that
    [validate] accepts, but [Scan] cannot store through it: it panics in
    [reflect], in [Set] for the SQL null and in [Elem] for a value the
    holder converts; only a value the holder refuses still comes back as an
    error. *)
Theorem Scan_nil_pointer_panics (h : heap) v ty k :
  h !! v = Some (sqlnull.NullValue, VAggr [VIface (Some (ty, VPtr None))]) ->
  resolve ty = Some k ->
  sqlnull.Scan intSize convertAssign (Some v) None h =
    Panic "reflect: call of reflect.Value.Set on zero Value" /\
  (forall raw,
     match convertAssign k raw with
     | inr _ =>
         sqlnull.Scan intSize convertAssign (Some v) (Some raw) h =
           Panic "reflect: call of reflect.Value.Elem on zero Value"
     | inl msg =>
         exists h', sqlnull.Scan intSize convertAssign (Some v) (Some raw) h =
                      Ret (Some (ConversionError msg)) h'
     end).
Proof.
  intros Hv R.
  assert (exists e, reflect.kind_of ty = reflect.Ptr /\ reflect.elem_of ty = Some e)
    as (e & Kty & Ety).
  { unfold resolve in R. destruct (innermost ty) as [T|] eqn:I; [|discriminate].
    destruct (innermost_Some _ _ I) as (e & ? & ? & _). eauto. }
  assert (El : forall h0, reflect.Elem (reflect.Direct ty (VPtr None)) h0 = Ret reflect.ZeroValue h0).
  { intros h0. unfold reflect.Elem. simpl.
    unfold mbind, M_bind, bind, mret, M_ret, ret. simpl. rewrite Kty. reflexivity. }
  split.
  - unfold sqlnull.Scan, sqlnull.target_of.
    step ltac:(step ltac:(apply (run_load _ _ _ Hv)); simpl; reflexivity).
    step ltac:(apply (validate_supported _ _ _ _ R)).
    rewrite zero_holder.
    step ltac:(eapply run_sql_Scan_nil; lookup_heap).
    step ltac:(apply El).
    step ltac:(eapply run_sql_Value; lookup_heap).
    step ltac:(apply (run_Type_Elem _ _ _ Ety)).
    step ltac:(apply run_ret).
    reflexivity.
  - intros raw. destruct (convertAssign k raw) as [msg|x] eqn:C.
    + eexists.
      unfold sqlnull.Scan, sqlnull.target_of.
      step ltac:(step ltac:(apply (run_load _ _ _ Hv)); simpl; reflexivity).
      step ltac:(apply (validate_supported _ _ _ _ R)).
      rewrite zero_holder.
      step ltac:(eapply run_sql_Scan_err; [apply lookup_insert_eq | exact C]).
      reflexivity.
    + unfold sqlnull.Scan, sqlnull.target_of.
      step ltac:(step ltac:(apply (run_load _ _ _ Hv)); simpl; reflexivity).
      step ltac:(apply (validate_supported _ _ _ _ R)).
      step ltac:(eapply run_sql_Scan_ok; [lookup_heap | exact C]).
      step ltac:(apply El).
      step ltac:(eapply run_sql_Value; lookup_heap).
      reflexivity.
Qed.

(** X4.  What a successful [Scan] of a value writes: when the destination
    already pointed to a variable, that variable and no other that existed,
    the destination's own variable included; when the destination was nil,
    the destination's variable and no other that existed. *)
Theorem Scan_value_frame (h : heap) v ty p e T inner k raw x :
  h !! v = Some (sqlnull.NullValue, VAggr [VIface (Some (ty, VPtr (Some p)))]) ->
  innermost ty = Some T -> scalar_kind T = Some k ->
  reflect.elem_of ty = Some e ->
  h !! p = Some (e, VPtr inner) ->
  (forall q, inner = Some q -> exists old, h !! q = Some (T, old)) ->
  convertAssign k raw = inr x ->
  exists h',
    sqlnull.Scan intSize convertAssign (Some v) (Some raw) h = Ret None h' /\
    match inner with
    | Some q =>
        forall l c, l <> q -> h !! l = Some c -> h' !! l = Some c
    | None =>
        forall l c, l <> p -> h !! l = Some c -> h' !! l = Some c
    end.
Proof.
  intros Hv I S E Hp Hq C.
  destruct (Scan_present_run intSize convertAssign _ _ _ _ _ _ _ _ _ _
              Hv I S E Hp Hq C) as (h' & q & Hs & H1 & H2 & H3 & Frame).
  exists h'. split; [exact Hs|].
  destruct inner as [q0|].
  - subst q0. intros l c Nl Hl.
    destruct (decide (l = p)) as [->|Np]; [| apply Frame; auto].
    rewrite Hp in Hl. injection Hl as <-. exact H1.
  - intros l c Nl Hl. apply Frame; auto.
    intros ->. rewrite H3 in Hl. discriminate Hl.
Qed.

(** X5.  [Target] and [Scan] together: for a live, well-typed destination
    of a supported type, [Target] returns a pointer to a new [NullValue], and
    [Scan] through it clears the destination for the SQL null and fills it
    for a value the holder converts. *)
Theorem Target_then_Scan (h : heap) ty p e T inner k :
  innermost ty = Some T -> scalar_kind T = Some k ->
  reflect.elem_of ty = Some e ->
  h !! p = Some (e, VPtr inner) ->
  (forall q, inner = Some q -> exists old, h !! q = Some (T, old)) ->
  exists l h1,
    sqlnull.Target (Some (ty, VPtr (Some p))) h =
      Ret (Some (TPtr sqlnull.NullValue, VPtr (Some l))) h1 /\
    h !! l = None /\
    (exists h2,
       sqlnull.Scan intSize convertAssign (Some l) None h1 = Ret None h2 /\
       h2 !! p = Some (e, VPtr None)) /\
    (forall raw x, convertAssign k raw = inr x ->
       exists h2 q,
         sqlnull.Scan intSize convertAssign (Some l) (Some raw) h1 = Ret None h2 /\
         h2 !! p = Some (e, VPtr (Some q)) /\
         h2 !! q = Some (T, declared_value intSize T (sql.field_value k x))).
Proof.
  intros I S E Hp Hq.
  assert (resolve ty = Some k) as R by (unfold resolve; rewrite I; exact S).
  destruct (Target_built (Some (ty, VPtr (Some p))) h) as (y & h1 & Ht & Sub & B).
  inversion B as [| ty' x' k' l R' Hl Hl1 | ty' x' R']; subst; [| congruence].
  exists l, h1. split; [exact Ht|]. split; [exact Hl|].
  pose proof (lookup_weaken _ _ _ _ Hp Sub) as Hp1.
  split.
  - destruct (Scan_absent_run intSize convertAssign _ _ _ _ _ _ _ Hl1 R Hp1)
      as (h2 & Hs & H2 & _).
    eauto.
  - intros raw x C.
    assert (forall q, inner = Some q -> exists old, h1 !! q = Some (T, old)) as Hq1.
    { intros q Eq. destruct (Hq q Eq) as [old Hq']. exists old.
      exact (lookup_weaken _ _ _ _ Hq' Sub). }
    destruct (Scan_present_run intSize convertAssign _ _ _ _ _ _ _ _ _ _
                Hl1 I S E Hp1 Hq1 C) as (h2 & q & Hs & H1 & H2 & _).
    eauto.
Qed.

(** X6.  The [NullValue] that [Target] builds never returns the
    UnsupportedDestination error: an error of [Scan] through it is the
    holder's refusal of a column value that is not null. *)
Theorem Target_adapter_never_unsupported (h : heap) ty x k :
  resolve ty = Some k ->
  exists l h1,
    sqlnull.Target (Some (ty, x)) h =
      Ret (Some (TPtr sqlnull.NullValue, VPtr (Some l))) h1 /\
    (forall src err h2,
       sqlnull.Scan intSize convertAssign (Some l) src h1 = Ret (Some err) h2 ->
       exists raw msg, src = Some raw /\ convertAssign k raw = inl msg /\
                       err = ConversionError msg).
Proof.
  intros R.
  destruct (Target_built (Some (ty, x)) h) as (y & h1 & Ht & Sub & B).
  inversion B as [| ty' x' k' l R' Hl Hl1 | ty' x' R']; subst; [| congruence].
  exists l, h1. split; [exact Ht|].
  intros src err h2 H.
  destruct (Scan_error_run intSize convertAssign _ _ _ _ _ H)
    as (ty' & x' & Tg & _ & [(R2 & _) | (k'' & raw & msg & R2 & -> & C & ->)]).
  - exfalso. unfold sqlnull.target_of in Tg.
    rewrite (run_bind _ _ _ _ _ (run_load _ _ _ Hl1)) in Tg. simpl in Tg.
    injection Tg as <- <-. congruence.
  - unfold sqlnull.target_of in Tg.
    rewrite (run_bind _ _ _ _ _ (run_load _ _ _ Hl1)) in Tg. simpl in Tg.
    injection Tg as <- <-. rewrite R in R2. injection R2 as <-. eauto.
Qed.

(** X7.  Row after row through one [NullValue]: after a first value the
    destination points to a variable [q]; a second value is stored in the
    same [q], and the destination still points to it; the SQL null then
    leaves nil in the destination, while [q] keeps the second value. *)
Theorem Scan_rows (h : heap) v ty p e T inner k raw1 x1 raw2 x2 :
  h !! v = Some (sqlnull.NullValue, VAggr [VIface (Some (ty, VPtr (Some p)))]) ->
  innermost ty = Some T -> scalar_kind T = Some k ->
  reflect.elem_of ty = Some e ->
  h !! p = Some (e, VPtr inner) ->
  (forall q, inner = Some q -> exists old, h !! q = Some (T, old)) ->
  convertAssign k raw1 = inr x1 ->
  convertAssign k raw2 = inr x2 ->
  exists h1 h2 h3 q,
    sqlnull.Scan intSize convertAssign (Some v) (Some raw1) h = Ret None h1 /\
    h1 !! p = Some (e, VPtr (Some q)) /\
    sqlnull.Scan intSize convertAssign (Some v) (Some raw2) h1 = Ret None h2 /\
    h2 !! p = Some (e, VPtr (Some q)) /\
    h2 !! q = Some (T, declared_value intSize T (sql.field_value k x2)) /\
    sqlnull.Scan intSize convertAssign (Some v) None h2 = Ret None h3 /\
    h3 !! p = Some (e, VPtr None) /\
    h3 !! q = Some (T, declared_value intSize T (sql.field_value k x2)).
Proof.
  intros Hv I S E Hp Hq C1 C2.
  assert (resolve ty = Some k) as R by (unfold resolve; rewrite I; exact S).
  destruct (innermost_Some _ _ I) as (e' & _ & Ety & Ke & _).
  rewrite E in Ety. injection Ety as <-.
  assert (T <> sqlnull.NullValue) as NT.
  { intros ->. vm_compute in S. discriminate S. }
  assert (T <> e) as NTe.
  { intros ->. exact (scalar_kind_not_Ptr _ _ S Ke). }
  assert (v <> p) as Nvp.
  { intros ->. rewrite Hp in Hv. injection Hv as -> _. discriminate Ke. }
  destruct (Scan_present_run intSize convertAssign _ _ _ _ _ _ _ _ _ _
              Hv I S E Hp Hq C1) as (h1 & q & Hs1 & Hp1 & Hq1 & Hin & Frame1).
  assert (v <> q) as Nvq.
  { intros ->. destruct inner as [q0|].
    - subst q0. destruct (Hq q eq_refl) as [old Hq'].
      rewrite Hv in Hq'. injection Hq' as Eq _. congruence.
    - rewrite Hv in Hin. discriminate Hin. }
  assert (q <> p) as Nqp.
  { intros ->. rewrite Hp1 in Hq1. injection Hq1 as Eq _. congruence. }
  pose proof (Frame1 _ _ Nvp Nvq Hv) as Hv1.
  assert (forall q', Some q = Some q' -> exists old, h1 !! q' = Some (T, old)) as Hq1'.
  { intros q' [= <-]. eauto. }
  destruct (Scan_present_run intSize convertAssign _ _ _ _ _ _ _ _ _ _
              Hv1 I S E Hp1 Hq1' C2) as (h2 & q2 & Hs2 & Hp2 & Hq2 & -> & Frame2).
  pose proof (Frame2 _ _ Nvp Nvq Hv1) as Hv2.
  destruct (Scan_absent_run intSize convertAssign _ _ _ _ _ _ _ Hv2 R Hp2)
    as (h3 & Hs3 & Hp3 & Frame3).
  exists h1, h2, h3, q. repeat split; auto.
Qed.

End ScanMore.

Lemma Scanner_loop_acc targets : forall acc (h : heap),
  sqlnull.Scanner_loop targets acc h =
  match sqlnull.Scanner_loop targets [] h with
  | Ret r h' => Ret (acc ++ r) h'
  | Panic why => Panic why
  end.
Proof.
  induction targets as [|t rest IH]; intros acc h.
  - simpl. unfold mret, M_ret, ret. rewrite app_nil_r. reflexivity.
  - simpl. unfold mbind, M_bind, bind.
    destruct (sqlnull.Target t h) as [y h1|why]; [|reflexivity].
    rewrite (IH (acc ++ [y])), (IH ([] ++ [y])).
    destruct (sqlnull.Scanner_loop rest [] h1); [|reflexivity].
    rewrite <- app_assoc. reflexivity.
Qed.

Lemma Scanner_loop_app xs ys : forall acc (h : heap),
  sqlnull.Scanner_loop (xs ++ ys) acc h =
  match sqlnull.Scanner_loop xs acc h with
  | Ret r h1 => sqlnull.Scanner_loop ys r h1
  | Panic why => Panic why
  end.
Proof.
  induction xs as [|t rest IH]; intros acc h.
  - reflexivity.
  - simpl. unfold mbind, M_bind, bind.
    destruct (sqlnull.Target t h) as [y h1|why]; [|reflexivity].
    apply IH.
Qed.

(** X8.  [Scanner] on a concatenation is [Scanner] on the first part, then
    [Scanner] on the second in the store the first left, with the results
    concatenated. *)
Theorem Scanner_app (xs ys : list any) (h : heap) :
  sqlnull.Scanner (xs ++ ys) h =
  (r1 ← sqlnull.Scanner xs; r2 ← sqlnull.Scanner ys; mret (r1 ++ r2)) h.
Proof.
  unfold sqlnull.Scanner. rewrite Scanner_loop_app.
  unfold mbind, M_bind, bind.
  destruct (sqlnull.Scanner_loop xs [] h) as [r1 h1|why]; [|reflexivity].
  rewrite Scanner_loop_acc.
  destruct (sqlnull.Scanner_loop ys [] h1); reflexivity.
Qed.

Lemma Target_fixed ty x (h : heap) :
  resolve ty = None -> sqlnull.Target (Some (ty, x)) h = Ret (Some (ty, x)) h.
Proof.
  intros R. unfold sqlnull.Target.
  step ltac:(apply (validate_unsupported _ _ _ R)). reflexivity.
Qed.

Lemma built_unresolved (h h' : heap) t y :
  built h h' t y -> exists ty x, y = Some (ty, x) /\ resolve ty = None.
Proof. intros B. destruct B; eauto. Qed.

Lemma Scanner_loop_fixed (r : list any) : forall acc (h : heap),
  Forall (fun y => exists ty x, y = Some (ty, x) /\ resolve ty = None) r ->
  sqlnull.Scanner_loop r acc h = Ret (acc ++ r) h.
Proof.
  induction r as [|y rest IH]; intros acc h F.
  - simpl. rewrite app_nil_r. reflexivity.
  - inversion F as [| y' rest' (ty & x & -> & R) F']; subst.
    simpl. step ltac:(apply (Target_fixed _ _ _ R)).
    rewrite (IH _ _ F'), <- app_assoc. reflexivity.
Qed.

(** X9.  [Scanner] applied to its own result returns that result and
    leaves the store as it is: nothing is wrapped twice. *)
Theorem Scanner_idempotent (targets : list any) (h : heap) :
  exists result h',
    sqlnull.Scanner targets h = Ret result h' /\
    sqlnull.Scanner result h' = Ret result h'.
Proof.
  destruct (Scanner_built targets h) as (result & h' & Hs & _ & _ & F).
  exists result, h'. split; [exact Hs|].
  unfold sqlnull.Scanner. apply (Scanner_loop_fixed result []).
  clear Hs. induction F as [| t y ts ys B _ IH]; constructor.
  - exact (built_unresolved _ _ _ _ B).
  - exact IH.
Qed.





(** X11.  [validate] looks through declared pointer types at both levels:
    a target whose type, or whose element type, is declared as a pointer
    type gets the holder of the plain pointer type. *)
Theorem validate_declared_pointers pkg name ty x (h : heap) :
  classification (sqlnull.validate (Some (TNamed pkg name ty, x)) h) =
    classification (sqlnull.validate (Some (ty, x)) h) /\
  classification (sqlnull.validate (Some (TPtr (TNamed pkg name ty), x)) h) =
    classification (sqlnull.validate (Some (TPtr ty, x)) h).
Proof.
  rewrite !validate_run.
  assert (resolve (TNamed pkg name ty) = resolve ty) as -> by reflexivity.
  assert (resolve (TPtr (TNamed pkg name ty)) = resolve (TPtr ty)) as -> by reflexivity.
  split.
  - destruct (resolve ty); reflexivity.
  - destruct (resolve (TPtr ty)); reflexivity.
Qed.







Section ScanInteger.

Variable intSize : Z.
Variable convertAssign : forall k : sql.Null, GoType * value -> string + sql.native k.


End ScanInteger.

(** ** The further properties at the sample programs *)

(** [sqlnull.New(some).Scan(...)] with [some int], for any column value. *)
Lemma New_Scan_unsupported_witness :
  (v ← sqlnull.New some_int;
   sqlnull.Scan 64 direct_convertAssign v (Some raw_text)) ∅ =
  Ret (Some (UnsupportedDestination (Some (TBasic go.int))))
      (<[fresh (dom (∅ : heap)) := (sqlnull.NullValue, VAggr [VIface some_int])]> ∅).
Proof.
  apply (New_Scan_unsupported 64 direct_convertAssign (TBasic go.int) (VInt 0)
           (Some raw_text) ∅).
  reflexivity.
Defined.

(** A text column for the [CustomBool] field that points at [true]. *)
Lemma Scan_outcome_witness :
  exists r h',
    sqlnull.Scan 64 direct_convertAssign (Some 3%positive) (Some raw_text) heap_set =
      Ret r h' /\
    match direct_convertAssign sql.NullBool raw_text with
    | inr _ => r = None
    | inl msg =>
        r = Some (ConversionError msg) /\
        h' !! 1%positive = Some (TPtr CustomBool, VPtr (Some 2%positive)) /\
        (forall q, Some 2%positive = Some q -> h' !! q = heap_set !! q)
    end.
Proof.
  apply (Scan_outcome 64 direct_convertAssign heap_set 3%positive
           (TPtr (TPtr CustomBool)) 1%positive (TPtr CustomBool) CustomBool
           (Some 2%positive) sql.NullBool (Some raw_text)); try reflexivity.
  intros q [= <-]. exists (VBool true). reflexivity.
Defined.

(** The nil [**CustomBool]: a panic for the SQL null. *)
Lemma Scan_nil_pointer_panics_witness :
  sqlnull.Scan 64 direct_convertAssign (Some 3%positive) None heap_nil_outer =
    Panic "reflect: call of reflect.Value.Set on zero Value".
Proof.
  apply (Scan_nil_pointer_panics 64 direct_convertAssign heap_nil_outer 3%positive
           (TPtr (TPtr CustomBool)) sql.NullBool); reflexivity.
Defined.

(** [false] for the field that points at [true]: address 2 is the only
    variable written. *)
Lemma Scan_value_frame_witness :
  exists h',
    sqlnull.Scan 64 direct_convertAssign (Some 3%positive) (Some raw_false) heap_set =
      Ret None h' /\
    (forall l c, l <> 2%positive -> heap_set !! l = Some c -> h' !! l = Some c).
Proof.
  apply (Scan_value_frame 64 direct_convertAssign heap_set 3%positive
           (TPtr (TPtr CustomBool)) 1%positive (TPtr CustomBool) CustomBool
           (Some 2%positive) sql.NullBool raw_false false); try reflexivity.
  intros q [= <-]. exists (VBool true). reflexivity.
Defined.

(** [sqlnull.Target(&field)] for the lone field, then [Scan]. *)
Lemma Target_then_Scan_witness :
  exists l h1,
    sqlnull.Target dest_bool heap_field =
      Ret (Some (TPtr sqlnull.NullValue, VPtr (Some l))) h1 /\
    heap_field !! l = None /\
    (exists h2,
       sqlnull.Scan 64 direct_convertAssign (Some l) None h1 = Ret None h2 /\
       h2 !! 1%positive = Some (TPtr CustomBool, VPtr None)) /\
    (forall raw x, direct_convertAssign sql.NullBool raw = inr x ->
       exists h2 q,
         sqlnull.Scan 64 direct_convertAssign (Some l) (Some raw) h1 = Ret None h2 /\
         h2 !! 1%positive = Some (TPtr CustomBool, VPtr (Some q)) /\
         h2 !! q = Some (CustomBool, declared_value 64 CustomBool (VBool x))).
Proof.
  apply (Target_then_Scan 64 direct_convertAssign heap_field (TPtr (TPtr CustomBool))
           1%positive (TPtr CustomBool) CustomBool None sql.NullBool);
    try reflexivity.
  intros q Hq. discriminate Hq.
Defined.

(** [sqlnull.Target(&field)] in the empty store. *)
Lemma Target_adapter_never_unsupported_witness :
  exists l h1,
    sqlnull.Target dest_bool ∅ =
      Ret (Some (TPtr sqlnull.NullValue, VPtr (Some l))) h1 /\
    (forall src err h2,
       sqlnull.Scan 64 direct_convertAssign (Some l) src h1 = Ret (Some err) h2 ->
       exists raw msg, src = Some raw /\
                       direct_convertAssign sql.NullBool raw = inl msg /\
                       err = ConversionError msg).
Proof.
  apply (Target_adapter_never_unsupported 64 direct_convertAssign ∅
           (TPtr (TPtr CustomBool)) (VPtr (Some 1%positive)) sql.NullBool).
  reflexivity.
Defined.

(** [true], then [false], then the SQL null, for the field that is nil. *)
Lemma Scan_rows_witness :
  exists h1 h2 h3 q,
    sqlnull.Scan 64 direct_convertAssign (Some 3%positive) (Some raw_true) heap_nil =
      Ret None h1 /\
    h1 !! 1%positive = Some (TPtr CustomBool, VPtr (Some q)) /\
    sqlnull.Scan 64 direct_convertAssign (Some 3%positive) (Some raw_false) h1 =
      Ret None h2 /\
    h2 !! 1%positive = Some (TPtr CustomBool, VPtr (Some q)) /\
    h2 !! q = Some (CustomBool, VBool false) /\
    sqlnull.Scan 64 direct_convertAssign (Some 3%positive) None h2 = Ret None h3 /\
    h3 !! 1%positive = Some (TPtr CustomBool, VPtr None) /\
    h3 !! q = Some (CustomBool, VBool false).
Proof.
  apply (Scan_rows 64 direct_convertAssign heap_nil 3%positive
           (TPtr (TPtr CustomBool)) 1%positive (TPtr CustomBool) CustomBool
           None sql.NullBool raw_true true raw_false false); try reflexivity.
  intros q Hq. discriminate Hq.
Defined.


